(** * Ou-Social: the post controller (routes/api/posts.js)

    A shallow embedding of the eight Express handlers of
    [routes/api/posts.js] and the properties of their contract.

    The handlers run after the [auth] middleware, against a document
    store reached through mongoose.  Each handler is an [async] function
    whose body is one [try]/[catch]; it is embedded as a computation in a
    state-and-exception monad over the database, returning the HTTP
    response it sends. *)

From stdpp Require Import gmap strings list fin_maps sorting.
From Stdlib Require Import ZArith Ascii String.

Open Scope string_scope.
Open Scope list_scope.
Open Scope Z_scope.

(** ** Identifiers *)

(** A mongoose [ObjectId].  [toString] is its hexadecimal rendering, the
    form in which identities travel in requests. *)
Record ObjectId := mkObjectId { toString : string }.

#[global] Instance ObjectId_eq_dec : EqDecision ObjectId.
Proof. solve_decision. Defined.

#[global] Instance ObjectId_countable : Countable ObjectId.
Proof.
  apply (inj_countable' toString mkObjectId). by intros [s].
Defined.

Definition is_hex_digit (c : ascii) : bool :=
  let n := nat_of_ascii c in
  ((48 <=? n) && (n <=? 57) || (97 <=? n) && (n <=? 102)
   || (65 <=? n) && (n <=? 70))%nat.

Definition lower_hex_digit (c : ascii) : ascii :=
  let n := nat_of_ascii c in
  if ((65 <=? n) && (n <=? 70))%nat then ascii_of_nat (n + 32) else c.

Fixpoint all_hex (s : string) : bool :=
  match s with
  | EmptyString => true
  | String c s' => is_hex_digit c && all_hex s'
  end.

Fixpoint lower_hex (s : string) : string :=
  match s with
  | EmptyString => EmptyString
  | String c s' => String (lower_hex_digit c) (lower_hex s')
  end.

(** The cast mongoose applies to a route parameter used as [_id]: a string
    of 24 hexadecimal digits denotes an identifier, anything else is a
    [CastError] of kind ['ObjectId']. *)
Definition castObjectId (s : string) : option ObjectId :=
  if (String.length s =? 24)%nat && all_hex s
  then Some (mkObjectId (lower_hex s))
  else None.

(** ** Documents *)

Record Like := mkLike {
  like_id : ObjectId;
  like_user : ObjectId
}.

Record Comment := mkComment {
  comment_oid : ObjectId;
  comment_text : string;
  comment_name : string;
  comment_avatar : string;
  comment_user : ObjectId;
  comment_date : Z
}.

(** [comment.id]: the string getter of a subdocument's [_id]. *)
Definition comment_id (c : Comment) : string := toString (comment_oid c).

Record Post := mkPost {
  post_text : string;
  post_name : string;
  post_avatar : string;
  post_user : ObjectId;
  likes : list Like;
  comments : list Comment;
  date : Z
}.

Record User := mkUser {
  user_name : string;
  user_avatar : string
}.

(** A post as loaded from the store: its [_id] and its fields. *)
Record Document := mkDocument {
  doc_id : ObjectId;
  doc : Post
}.

Definition set_likes (d : Document) (l : list Like) : Document :=
  {| doc_id := doc_id d;
     doc := {| post_text := post_text (doc d); post_name := post_name (doc d);
               post_avatar := post_avatar (doc d); post_user := post_user (doc d);
               likes := l; comments := comments (doc d); date := date (doc d) |} |}.

Definition set_comments (d : Document) (l : list Comment) : Document :=
  {| doc_id := doc_id d;
     doc := {| post_text := post_text (doc d); post_name := post_name (doc d);
               post_avatar := post_avatar (doc d); post_user := post_user (doc d);
               likes := likes (doc d); comments := l; date := date (doc d) |} |}.

(** ** The store *)

(** The [Post] and [User] collections, keyed by [_id], and whether the
    store can be reached. *)
Record Db := mkDb {
  db_posts : gmap ObjectId Post;
  db_users : gmap ObjectId User;
  db_online : bool
}.

(** ** Exceptions and the handler monad *)

Inductive Exception :=
| CastError (kind : string)
| TypeError (message : string)
| ReferenceError (message : string)
| MongoError (message : string).

(** [err.kind]: only a cast error has one. *)
Definition kind_of (err : Exception) : option string :=
  match err with
  | CastError k => Some k
  | _ => None
  end.

Inductive Completion (A : Type) :=
| Normal (a : A)
| Throw (err : Exception).
Arguments Normal {A} a.
Arguments Throw {A} err.

Definition M (A : Type) : Type := Db -> Completion A * Db.

Definition ret {A} (a : A) : M A := fun st => (Normal a, st).

Definition throw {A} (err : Exception) : M A := fun st => (Throw err, st).

Definition bind {A B} (m : M A) (k : A -> M B) : M B :=
  fun st =>
    match m st with
    | (Normal a, st') => k a st'
    | (Throw err, st') => (Throw err, st')
    end.

Definition try_catch {A} (body : M A) (handler : Exception -> M A) : M A :=
  fun st =>
    match body st with
    | (Normal a, st') => (Normal a, st')
    | (Throw err, st') => handler err st'
    end.

Declare Scope handler_scope.
Delimit Scope handler_scope with handler.
Notation "x <- m ;; k" := (bind m (fun x => k))
  (at level 100, m at next level, right associativity) : handler_scope.
Notation "m ;;; k" := (bind m (fun _ => k))
  (at level 100, right associativity) : handler_scope.
Open Scope handler_scope.

(** Reading a property of a value that may be [null]. *)
Definition property_of {A} (o : option A) (prop : string) : M A :=
  match o with
  | Some a => ret a
  | None => throw (TypeError ("Cannot read property '" ++ prop ++ "' of null")%string)
  end.

(** ** Store operations (mongoose) *)

(** The store belongs to the driver, not to the controller; its
    operations are embedded as far as the handlers use them.  A store
    that cannot be reached rejects every call. *)
Definition connected : M unit :=
  fun st => if db_online st then (Normal tt, st)
            else (Throw (MongoError "connection failed"), st).

(** [Post.findById(id)] *)
Definition Post_findById (id : string) : M (option Document) :=
  match castObjectId id with
  | None => throw (CastError "ObjectId")
  | Some oid =>
      connected ;;;
      fun st => (Normal (mkDocument oid <$> db_posts st !! oid), st)
  end.

(** [User.findById(req.user.id).select('-password')]; the identity comes
    from the [auth] middleware, which hands over the identifier of the
    signed-in user in its canonical string form. *)
Definition User_findById (id : string) : M (option User) :=
  connected ;;;
  fun st => (Normal (db_users st !! mkObjectId id), st).

(** [post.save()] on a loaded document. *)
Definition save (d : Document) : M Document :=
  connected ;;;
  fun st => (Normal d,
             {| db_posts := <[doc_id d := doc d]> (db_posts st);
                db_users := db_users st; db_online := db_online st |}).

(** [newPost.save()] on a new document: an insert, refused on a
    duplicate [_id]. *)
Definition save_new (d : Document) : M Document :=
  connected ;;;
  fun st =>
    match db_posts st !! doc_id d with
    | Some _ => (Throw (MongoError "E11000 duplicate key error"), st)
    | None =>
        (Normal d,
         {| db_posts := <[doc_id d := doc d]> (db_posts st);
            db_users := db_users st; db_online := db_online st |})
    end.

(** [post.remove()] *)
Definition remove (d : Document) : M unit :=
  connected ;;;
  fun st => (Normal tt,
             {| db_posts := delete (doc_id d) (db_posts st);
                db_users := db_users st; db_online := db_online st |}).

(** Most recent first: the order asked for by [sort({ date: -1 })]. *)
Definition date_desc (d1 d2 : Document) : Prop := date (doc d2) <= date (doc d1).

#[global] Instance date_desc_dec : RelDecision date_desc.
Proof. intros d1 d2. unfold date_desc. apply _. Defined.

(** Every stored post, as a document. *)
Definition all_documents (st : Db) : list Document :=
  (fun kv => mkDocument (fst kv) (snd kv)) <$> map_to_list (db_posts st).

(** [Post.find().sort({ date: -1 })] *)
Definition Post_find_sort_date_desc : M (list Document) :=
  connected ;;;
  fun st => (Normal (merge_sort date_desc (all_documents st)), st).

(** ** Requests and responses *)

(** What a handler reads of the request: [req.user.id] (set by [auth]),
    [req.params.id], [req.params.comment_id] and [req.body.text]. *)
Record Request := mkRequest {
  user_id : string;
  params_id : string;
  params_comment_id : string;
  body_text : option string
}.

Record ValidationError := mkValidationError {
  msg : string;
  param : string
}.

Inductive Body :=
| JsonPost (post : Document)
| JsonPosts (posts : list Document)
| JsonLikes (l : list Like)
| JsonComments (l : list Comment)
| JsonMsg (m : string)
| JsonErrors (errors : list ValidationError)
| Text (s : string).

Record Response := mkResponse {
  status : nat;
  body : Body
}.

(** [res.json(b)] *)
Definition res_json (b : Body) : Response := {| status := 200; body := b |}.

(** [res.status(code).json(b)] and [res.status(code).send(s)] *)
Definition res_status (code : nat) (b : Body) : Response :=
  {| status := code; body := b |}.

Definition server_error : M Response := ret (res_status 500 (Text "Server error")).

(** [check('text', 'Text is required').not().isEmpty()] followed by
    [validationResult(req)]: a missing field is read as the empty string. *)
Definition validationResult (req : Request) : list ValidationError :=
  match default "" (body_text req) with
  | EmptyString => [ {| msg := "Text is required"; param := "text" |} ]
  | String _ _ => []
  end.

Definition isEmpty {A} (l : list A) : bool :=
  match l with [] => true | _ :: _ => false end.

(** ** Array methods *)

Definition unshift {A} (x : A) (l : list A) : list A := x :: l.

Fixpoint indexOf_from (x : string) (l : list string) (i : Z) : Z :=
  match l with
  | [] => -1
  | y :: l' => if String.eqb y x then i else indexOf_from x l' (i + 1)
  end.

(** [l.indexOf(x)]: the first position of [x], or [-1]. *)
Definition indexOf (x : string) (l : list string) : Z := indexOf_from x l 0.

(** [l.splice(start, deleteCount)], as the array it leaves behind: a
    negative [start] counts from the end, and both are clamped. *)
Definition splice {A} (start deleteCount : Z) (l : list A) : list A :=
  let len := Z.of_nat (List.length l) in
  let actualStart := if (start <? 0)%Z then Z.max (len + start) 0 else Z.min start len in
  let actualDeleteCount := Z.min (Z.max deleteCount 0) (len - actualStart) in
  take (Z.to_nat actualStart) l
    ++ drop (Z.to_nat (actualStart + actualDeleteCount)) l.

(** [like => like.user.toString() === req.user.id] *)
Definition liked_by (id : string) (like : Like) : bool :=
  String.eqb (toString (like_user like)) id.

(** ** Documents in the making *)

(** Modelled from the spec: the [Post] schema ([models/Post], not among
    the sources at hand).  [new Post({ text, name, avatar, user })] is a
    post with the [_id] the driver draws for it, no likes, no comments,
    and the time of insertion as its date; [user] is stored as a
    reference. *)
Definition new_Post (fresh : ObjectId) (now : Z)
    (text name avatar user : string) : Document :=
  {| doc_id := fresh;
     doc := {| post_text := text; post_name := name; post_avatar := avatar;
               post_user := mkObjectId user;
               likes := []; comments := []; date := now |} |}.

(** Modelled from the spec: an entry of [likes] is [{ user, id }]; the
    object [{ user: req.user.id }] put in the array becomes a subdocument
    with an [_id] of its own. *)
Definition new_like (fresh : ObjectId) (user : string) : Like :=
  {| like_id := fresh; like_user := mkObjectId user |}.

(** Modelled from the spec: an entry of [comments] is
    [{ id, text, name, avatar, user, date }]; the object
    [{ text, name, avatar, user }] put in the array becomes a subdocument
    with an [_id] of its own and the time of insertion as its date. *)
Definition new_comment (fresh : ObjectId) (now : Z)
    (text name avatar user : string) : Comment :=
  {| comment_oid := fresh; comment_text := text; comment_name := name;
     comment_avatar := avatar; comment_user := mkObjectId user;
     comment_date := now |}.

(** ** The handlers *)

(** [POST api/posts] *)
Definition create_post (fresh : ObjectId) (now : Z) (req : Request) : M Response :=
  let errors := validationResult req in
  if negb (isEmpty errors) then ret (res_status 400 (JsonErrors errors))
  else
    try_catch
      (user <- User_findById (user_id req) ;;
       user <- property_of user "name" ;;
       let newPost :=
         new_Post fresh now
           (default "" (body_text req)) (user_name user) (user_avatar user)
           (user_id req) in
       post <- save_new newPost ;;
       ret (res_json (JsonPost post)))
      (fun err => server_error).

(** [GET api/posts] *)
Definition get_posts (req : Request) : M Response :=
  try_catch
    (posts <- Post_find_sort_date_desc ;;
     ret (res_json (JsonPosts posts)))
    (fun err => server_error).

(** [GET api/posts/:id]; the not-found branch calls [status(404)], a name
    that is bound nowhere. *)
Definition get_post_by_id (req : Request) : M Response :=
  try_catch
    (post <- Post_findById (params_id req) ;;
     match post with
     | None => throw (ReferenceError "status is not defined")
     | Some post => ret (res_json (JsonPost post))
     end)
    (fun err =>
       if bool_decide (kind_of err = Some "ObjectId")
       then ret (res_status 404 (JsonMsg "Post not found"))
       else server_error).

(** [DELETE api/posts/:id] *)
Definition delete_post (req : Request) : M Response :=
  try_catch
    (post <- Post_findById (params_id req) ;;
     post <- property_of post "user" ;;
     if negb (String.eqb (toString (post_user (doc post))) (user_id req))
     then ret (res_status 401 (JsonMsg "User not authorized"))
     else
       (remove post ;;;
        ret (res_json (JsonMsg "Post removed"))))
    (fun err => server_error).

(** [PUT api/posts/like/:id] *)
Definition put_like (fresh : ObjectId) (req : Request) : M Response :=
  try_catch
    (post <- Post_findById (params_id req) ;;
     post <- property_of post "likes" ;;
     if (0 <? List.length (List.filter (liked_by (user_id req)) (likes (doc post))))%nat
     then ret (res_status 400 (JsonMsg "Post already liked"))
     else
       let post :=
         set_likes post
           (unshift (new_like fresh (user_id req)) (likes (doc post))) in
       (save post ;;;
        ret (res_json (JsonLikes (likes (doc post))))))
    (fun err => server_error).

(** [PUT api/posts/unlike/:id] *)
Definition put_unlike (req : Request) : M Response :=
  try_catch
    (post <- Post_findById (params_id req) ;;
     post <- property_of post "likes" ;;
     if (List.length (List.filter (liked_by (user_id req)) (likes (doc post))) =? 0)%nat
     then ret (res_status 400 (JsonMsg "Post has not yet being liked"))
     else
       let removeIndex :=
         indexOf (user_id req)
                 (List.map (fun like => toString (like_user like)) (likes (doc post))) in
       let post := set_likes post (splice removeIndex 1 (likes (doc post))) in
       (save post ;;;
        ret (res_json (JsonLikes (likes (doc post))))))
    (fun err => server_error).

(** [POST api/posts/comment/:id] *)
Definition post_comment (fresh : ObjectId) (now : Z) (req : Request) : M Response :=
  let errors := validationResult req in
  if negb (isEmpty errors) then ret (res_status 400 (JsonErrors errors))
  else
    try_catch
      (user <- User_findById (user_id req) ;;
       post <- Post_findById (params_id req) ;;
       user <- property_of user "name" ;;
       let newComment :=
         new_comment fresh now
           (default "" (body_text req)) (user_name user) (user_avatar user)
           (user_id req) in
       post <- property_of post "comments" ;;
       let post := set_comments post (unshift newComment (comments (doc post))) in
       (save post ;;;
        ret (res_json (JsonComments (comments (doc post))))))
      (fun err => server_error).

(** [DELETE api/posts/comment/:id/:comment_id] *)
Definition delete_comment (req : Request) : M Response :=
  try_catch
    (post <- Post_findById (params_id req) ;;
     post <- property_of post "comments" ;;
     match List.find (fun comment => String.eqb (comment_id comment) (params_comment_id req))
                     (comments (doc post)) with
     | None => ret (res_status 404 (JsonMsg "Comment does not exist"))
     | Some comment =>
         if negb (String.eqb (toString (comment_user comment)) (user_id req))
         then ret (res_status 401 (JsonMsg "User not authorized"))
         else
           let removeIndex :=
             indexOf (user_id req)
                     (List.map (fun comment => toString (comment_user comment))
                               (comments (doc post))) in
           let post := set_comments post (splice removeIndex 1 (comments (doc post))) in
           (save post ;;;
            ret (res_json (JsonComments (comments (doc post)))))
     end)
    (fun err => server_error).

(** ** The router *)

Inductive Route :=
| POST_posts
| GET_posts
| GET_posts_id
| DELETE_posts_id
| PUT_posts_like_id
| PUT_posts_unlike_id
| POST_posts_comment_id
| DELETE_posts_comment_id_comment_id.

(** One request served: [fresh] is the identifier the driver draws for a
    new document or subdocument, [now] the clock ([Date.now]). *)
Definition router (r : Route) (fresh : ObjectId) (now : Z) (req : Request) : M Response :=
  match r with
  | POST_posts => create_post fresh now req
  | GET_posts => get_posts req
  | GET_posts_id => get_post_by_id req
  | DELETE_posts_id => delete_post req
  | PUT_posts_like_id => put_like fresh req
  | PUT_posts_unlike_id => put_unlike req
  | POST_posts_comment_id => post_comment fresh now req
  | DELETE_posts_comment_id_comment_id => delete_comment req
  end.

(** One request as the server receives it, and a sequence of requests
    served one after the other, each on the store the previous one left. *)
Record Served := mkServed {
  served_route : Route;
  served_fresh : ObjectId;
  served_now : Z;
  served_request : Request
}.

Definition serve_one (s : Served) (st : Db) : Db :=
  snd (router (served_route s) (served_fresh s) (served_now s) (served_request s) st).

Fixpoint serve (trace : list Served) (st : Db) : Db :=
  match trace with
  | [] => st
  | s :: trace' => serve trace' (serve_one s st)
  end.

(** ** Vocabulary of the contract *)

(** The identities that like a post, in order:
    [post.likes.map(like => like.user.toString())]. *)
Definition likers (p : Post) : list string :=
  List.map (fun like => toString (like_user like)) (likes p).

(** At most one like per user identity. *)
Definition likes_unique (p : Post) : Prop := NoDup (likers p).

Definition likes_invariant (st : Db) : Prop :=
  map_Forall (fun _ p => likes_unique p) (db_posts st).

(** The fields of a post that are set when it is created. *)
Definition same_header (p p' : Post) : Prop :=
  post_text p = post_text p' /\ post_name p = post_name p'
  /\ post_avatar p = post_avatar p' /\ post_user p = post_user p'
  /\ date p = date p'.

(** The comments of a post written by someone other than [caller]. *)
Definition comments_of_others (caller : string) (p : Post) : list Comment :=
  List.filter (fun c => negb (String.eqb (toString (comment_user c)) caller))
              (comments p).

(** The statuses each route answers with. *)
Definition route_statuses (r : Route) : list nat :=
  match r with
  | POST_posts => [200; 400; 500]
  | GET_posts => [200; 500]
  | GET_posts_id => [200; 404; 500]
  | DELETE_posts_id => [200; 401; 500]
  | PUT_posts_like_id => [200; 400; 500]
  | PUT_posts_unlike_id => [200; 400; 500]
  | POST_posts_comment_id => [200; 400; 500]
  | DELETE_posts_comment_id_comment_id => [200; 401; 404; 500]
  end%nat.

(** ** A small store to run the handlers on *)

Module Sample.

Definition alice : string := "5f0000000000000000000001".
Definition bob : string := "5f0000000000000000000002".
Definition carol : string := "5f0000000000000000000003".

Definition hello_id : string := "60000000000000000000000a".
Definition later_id : string := "60000000000000000000000b".
Definition nobody_id : string := "60000000000000000000000c".

(** Two comments by [alice], the newer one first. *)
Definition newer : Comment :=
  {| comment_oid := mkObjectId "70000000000000000000000a";
     comment_text := "second thoughts"; comment_name := "Alice";
     comment_avatar := "a.png"; comment_user := mkObjectId alice;
     comment_date := 12 |}.

Definition older : Comment :=
  {| comment_oid := mkObjectId "70000000000000000000000b";
     comment_text := "first thoughts"; comment_name := "Alice";
     comment_avatar := "a.png"; comment_user := mkObjectId alice;
     comment_date := 11 |}.

Definition bobs_like : Like :=
  {| like_id := mkObjectId "80000000000000000000000a";
     like_user := mkObjectId bob |}.

Definition hello : Post :=
  {| post_text := "hello"; post_name := "Alice"; post_avatar := "a.png";
     post_user := mkObjectId alice; likes := [bobs_like];
     comments := [newer; older]; date := 10 |}.

Definition later : Post :=
  {| post_text := "later"; post_name := "Bob"; post_avatar := "b.png";
     post_user := mkObjectId bob; likes := []; comments := []; date := 20 |}.

Definition db : Db :=
  {| db_posts := <[mkObjectId hello_id := hello]>
                   (<[mkObjectId later_id := later]> ∅);
     db_users := <[mkObjectId alice := mkUser "Alice" "a.png"]>
                   (<[mkObjectId bob := mkUser "Bob" "b.png"]> ∅);
     db_online := true |}.

Definition hello_doc : Document := mkDocument (mkObjectId hello_id) hello.

Definition request (caller id : string) : Request :=
  {| user_id := caller; params_id := id; params_comment_id := "";
     body_text := None |}.

Definition fresh_id : ObjectId := mkObjectId "90000000000000000000000a".

(** A request with a body, and a request that names a comment. *)
Definition write (caller id text : string) : Request :=
  {| user_id := caller; params_id := id; params_comment_id := "";
     body_text := Some text |}.

Definition on_comment (caller id cid : string) : Request :=
  {| user_id := caller; params_id := id; params_comment_id := cid;
     body_text := None |}.

(** The same store, out of reach. *)
Definition offline_db : Db :=
  {| db_posts := db_posts db; db_users := db_users db; db_online := false |}.

End Sample.

(** ** Facts about the store operations *)

Lemma Post_findById_inv id st d st' :
  Post_findById id st = (Normal (Some d), st') ->
  st' = st /\ castObjectId id = Some (doc_id d) /\ db_online st = true
  /\ db_posts st !! doc_id d = Some (doc d).
Proof.
  unfold Post_findById, bind, connected, throw.
  destruct (castObjectId id) as [oid|]; [|discriminate].
  destruct (db_online st); [|discriminate].
  destruct (db_posts st !! oid) as [p|] eqn:Hp; simpl; [|discriminate].
  intros [= <- <-]. auto.
Qed.

Lemma Post_findById_found id st oid p :
  castObjectId id = Some oid -> db_online st = true ->
  db_posts st !! oid = Some p ->
  Post_findById id st = (Normal (Some (mkDocument oid p)), st).
Proof.
  intros Hc Ho Hp. unfold Post_findById, bind, connected.
  by rewrite Hc, Ho, Hp.
Qed.

Lemma Post_findById_absent id st oid :
  castObjectId id = Some oid -> db_online st = true ->
  db_posts st !! oid = None ->
  Post_findById id st = (Normal None, st).
Proof.
  intros Hc Ho Hp. unfold Post_findById, bind, connected.
  by rewrite Hc, Ho, Hp.
Qed.

Lemma Post_findById_offline id st oid :
  castObjectId id = Some oid -> db_online st = false ->
  Post_findById id st = (Throw (MongoError "connection failed"), st).
Proof.
  intros Hc Ho. unfold Post_findById, bind, connected. by rewrite Hc, Ho.
Qed.

Lemma Post_findById_malformed id st :
  castObjectId id = None ->
  Post_findById id st = (Throw (CastError "ObjectId"), st).
Proof. intros Hc. unfold Post_findById. by rewrite Hc. Qed.

Lemma save_online d st :
  db_online st = true ->
  save d st = (Normal d, {| db_posts := <[doc_id d := doc d]> (db_posts st);
                            db_users := db_users st; db_online := db_online st |}).
Proof.
  intros Ho. unfold save, bind, connected.
  destruct (db_online st) eqn:Hst; [|discriminate]. by rewrite Hst.
Qed.

(** ** Facts about the array methods *)

Lemma liked_by_filter_pos id (l : list Like) :
  (0 <? List.length (List.filter (liked_by id) l))%nat = true
  <-> id ∈ List.map (fun like => toString (like_user like)) l.
Proof.
  induction l as [|like l IH]; simpl.
  - split; [discriminate | by intros ?%elem_of_nil].
  - unfold liked_by at 1. rewrite elem_of_cons.
    destruct (String.eqb_spec (toString (like_user like)) id) as [->|Hne]; simpl.
    + split; auto.
    + rewrite IH. split; [auto | intros [Heq|]; [congruence | done]].
Qed.

Lemma liked_by_filter_zero id (l : list Like) :
  (List.length (List.filter (liked_by id) l) =? 0)%nat = true
  <-> id ∉ List.map (fun like => toString (like_user like)) l.
Proof.
  rewrite <- liked_by_filter_pos.
  destruct (List.length (List.filter (liked_by id) l)); simpl; split;
    (done || discriminate || auto).
Qed.

Lemma indexOf_from_first {A} (f : A -> string) x l1 y l2 i :
  x ∉ List.map f l1 -> f y = x ->
  indexOf_from x (List.map f (l1 ++ y :: l2)) i = i + Z.of_nat (List.length l1).
Proof.
  revert i. induction l1 as [|z l1 IH]; intros i Hni Hy; simpl.
  - rewrite Hy, String.eqb_refl. lia.
  - simpl in Hni. apply not_elem_of_cons in Hni as [Hne Hni].
    destruct (String.eqb_spec (f z) x) as [Heq|_]; [congruence|].
    rewrite IH by done. lia.
Qed.

Lemma splice_one {A} (l1 : list A) y l2 :
  splice (Z.of_nat (List.length l1)) 1 (l1 ++ y :: l2) = l1 ++ l2.
Proof.
  unfold splice. rewrite length_app. simpl.
  destruct (Z.ltb_spec (Z.of_nat (List.length l1)) 0) as [?|_]; [lia|].
  rewrite Z.min_l by lia.
  replace (Z.min (Z.max 1 0) _) with 1 by lia.
  rewrite Nat2Z.id.
  replace (Z.to_nat (Z.of_nat (List.length l1) + 1)) with (S (List.length l1)) by lia.
  rewrite take_app_length.
  change (l1 ++ y :: l2) with (l1 ++ [y] ++ l2). rewrite app_assoc.
  replace (S (List.length l1)) with (List.length (l1 ++ [y]))
    by (rewrite length_app; simpl; lia).
  by rewrite drop_app_length.
Qed.

Lemma first_occurrence {A} (f : A -> string) x (l : list A) :
  x ∈ List.map f l ->
  exists l1 y l2, l = l1 ++ y :: l2 /\ f y = x /\ x ∉ List.map f l1.
Proof.
  induction l as [|z l IH]; simpl.
  - by intros ?%elem_of_nil.
  - intros Hin. destruct (decide (f z = x)) as [Heq|Hne].
    + exists [], z, l. repeat split; [done|]. simpl. apply not_elem_of_nil.
    + apply elem_of_cons in Hin as [?|Hin]; [congruence|].
      destruct (IH Hin) as (l1 & y & l2 & -> & Hy & Hni).
      exists (z :: l1), y, l2. repeat split; [done|].
      simpl. apply not_elem_of_cons. split; [congruence | done].
Qed.

(** Splicing at [indexOf] removes the first entry whose key is [x]. *)
Lemma splice_indexOf {A} (f : A -> string) x (l : list A) :
  x ∈ List.map f l ->
  exists l1 y l2, l = l1 ++ y :: l2 /\ f y = x /\ (x ∉ List.map f l1)
    /\ splice (indexOf x (List.map f l)) 1 l = l1 ++ l2.
Proof.
  intros Hin. destruct (first_occurrence f x l Hin) as (l1 & y & l2 & -> & Hy & Hni).
  exists l1, y, l2. repeat split; try done.
  unfold indexOf. rewrite (indexOf_from_first f x l1 y l2 0 Hni Hy).
  rewrite Z.add_0_l. apply splice_one.
Qed.

(** ** Fetching one post *)

Lemma get_post_by_id_found req st post :
  Post_findById (params_id req) st = (Normal (Some post), st) ->
  get_post_by_id req st = (Normal (res_json (JsonPost post)), st).
Proof. intros Hf. unfold get_post_by_id, try_catch, bind. by rewrite Hf. Qed.

Lemma get_post_by_id_malformed req st :
  castObjectId (params_id req) = None ->
  get_post_by_id req st = (Normal (res_status 404 (JsonMsg "Post not found")), st).
Proof.
  intros Hc. unfold get_post_by_id, try_catch, bind.
  by rewrite (Post_findById_malformed _ _ Hc).
Qed.


(** A well-formed identifier of no stored post: the not-found branch
    raises, and the [catch] answers 500. *)
Lemma get_post_by_id_absent req st oid :
  castObjectId (params_id req) = Some oid ->
  db_posts st !! oid = None ->
  get_post_by_id req st = (Normal (res_status 500 (Text "Server error")), st).
Proof.
  intros Hc Hp. unfold get_post_by_id, try_catch, bind.
  destruct (db_online st) eqn:Ho.
  - by rewrite (Post_findById_absent _ _ _ Hc Ho Hp).
  - by rewrite (Post_findById_offline _ _ _ Hc Ho).
Qed.

(** ** Likes *)

(** C3. A like by a user who is already among the likes of an existing
    post is answered 400 'Post already liked', and the store, hence the
    likes of the post, is left as it was: nothing is saved. *)
Theorem put_like_already_liked fresh req st post :
  Post_findById (params_id req) st = (Normal (Some post), st) ->
  user_id req ∈ likers (doc post) ->
  put_like fresh req st
  = (Normal (res_status 400 (JsonMsg "Post already liked")), st).
Proof.
  intros Hf Hin. unfold put_like, try_catch, bind. rewrite Hf. simpl.
  apply liked_by_filter_pos in Hin. by rewrite Hin.
Qed.

(** C4. An unlike by a user who is not among the likes of an existing post
    is answered 400 'Post has not yet being liked', and the store, hence
    the likes of the post, is left as it was: nothing is saved. *)
Theorem put_unlike_not_liked req st post :
  Post_findById (params_id req) st = (Normal (Some post), st) ->
  user_id req ∉ likers (doc post) ->
  put_unlike req st
  = (Normal (res_status 400 (JsonMsg "Post has not yet being liked")), st).
Proof.
  intros Hf Hni. unfold put_unlike, try_catch, bind. rewrite Hf. simpl.
  apply liked_by_filter_zero in Hni. by rewrite Hni.
Qed.

Lemma put_like_fresh fresh req st post :
  Post_findById (params_id req) st = (Normal (Some post), st) ->
  user_id req ∉ likers (doc post) ->
  let like := new_like fresh (user_id req) in
  put_like fresh req st
  = (Normal (res_json (JsonLikes (like :: likes (doc post)))),
     {| db_posts := <[doc_id post := doc (set_likes post (like :: likes (doc post)))]>
                      (db_posts st);
        db_users := db_users st; db_online := db_online st |}).
Proof.
  intros Hf Hni like. pose proof (Post_findById_inv _ _ _ _ Hf) as (_ & _ & Ho & _).
  unfold put_like, try_catch, bind. rewrite Hf. simpl.
  apply liked_by_filter_zero in Hni.
  destruct (List.length (List.filter (liked_by (user_id req)) (likes (doc post))));
    [|discriminate].
  simpl. rewrite save_online by done. done.
Qed.

Lemma put_unlike_liked req st post :
  Post_findById (params_id req) st = (Normal (Some post), st) ->
  user_id req ∈ likers (doc post) ->
  let rest := splice (indexOf (user_id req) (likers (doc post))) 1 (likes (doc post)) in
  put_unlike req st
  = (Normal (res_json (JsonLikes rest)),
     {| db_posts := <[doc_id post := doc (set_likes post rest)]> (db_posts st);
        db_users := db_users st; db_online := db_online st |}).
Proof.
  intros Hf Hin rest. pose proof (Post_findById_inv _ _ _ _ Hf) as (_ & _ & Ho & _).
  unfold put_unlike, try_catch, bind. rewrite Hf. simpl.
  apply liked_by_filter_pos in Hin.
  destruct (List.length (List.filter (liked_by (user_id req)) (likes (doc post))));
    [discriminate|].
  simpl. rewrite save_online by done. done.
Qed.

(** C5. On an existing post that the caller has not liked, a like followed
    by an unlike of the same caller both succeed, the unlike answers the
    likes as they were before the like, and the store is back in its
    state before the like. *)
Theorem like_then_unlike_round_trip fresh req st post :
  Post_findById (params_id req) st = (Normal (Some post), st) ->
  user_id req ∉ likers (doc post) ->
  exists like st1,
    put_like fresh req st
    = (Normal (res_json (JsonLikes (like :: likes (doc post)))), st1)
    /\ toString (like_user like) = user_id req
    /\ put_unlike req st1 = (Normal (res_json (JsonLikes (likes (doc post)))), st).
Proof.
  intros Hf Hni.
  pose proof (Post_findById_inv _ _ _ _ Hf) as (_ & Hc & Ho & Hp).
  set (like := new_like fresh (user_id req)).
  set (post1 := set_likes post (like :: likes (doc post))).
  eexists like, _. split; [by apply put_like_fresh|]. split; [done|].
  match goal with |- put_unlike req ?s = _ => set (st1 := s) end.
  assert (Hf1 : Post_findById (params_id req) st1 = (Normal (Some post1), st1)).
  { change post1 with (mkDocument (doc_id post) (doc post1)).
    apply Post_findById_found; [done | done |]. simpl. apply lookup_insert_eq. }
  assert (Hin1 : user_id req ∈ likers (doc post1)).
  { unfold likers. simpl. apply list_elem_of_here. }
  rewrite (put_unlike_liked req st1 post1 Hf1 Hin1).
  assert (Hrest : splice (indexOf (user_id req) (likers (doc post1))) 1 (likes (doc post1))
                  = likes (doc post)).
  { unfold likers, indexOf. simpl. rewrite String.eqb_refl.
    apply (splice_one [] like (likes (doc post))). }
  rewrite Hrest. f_equal.
  destruct st as [posts users online], post as [oid p], p. simpl in *.
  f_equal. rewrite insert_insert_eq. by apply insert_id.
Qed.

(** C10. For a well-formed identifier of no stored post, like and unlike
    both answer 500 'Server error' (not 404) and leave the store as it
    was. *)
Theorem like_unlike_missing_post fresh req st oid :
  castObjectId (params_id req) = Some oid ->
  db_posts st !! oid = None ->
  put_like fresh req st = (Normal (res_status 500 (Text "Server error")), st)
  /\ put_unlike req st = (Normal (res_status 500 (Text "Server error")), st).
Proof.
  intros Hc Hp. unfold put_like, put_unlike, try_catch, bind.
  destruct (db_online st) eqn:Ho.
  - by rewrite (Post_findById_absent _ _ _ Hc Ho Hp).
  - by rewrite (Post_findById_offline _ _ _ Hc Ho).
Qed.

(** With the store reachable, the 500 of C10 comes from reading [likes]
    of the [null] that [findById] returned. *)
Lemma missing_post_null_dereference id st oid :
  castObjectId id = Some oid -> db_online st = true ->
  db_posts st !! oid = None ->
  (post <- Post_findById id ;; property_of post "likes") st
  = (Throw (TypeError "Cannot read property 'likes' of null"), st).
Proof.
  intros Hc Ho Hp. unfold bind. by rewrite (Post_findById_absent _ _ _ Hc Ho Hp).
Qed.

(** ** Deleting a post *)

(** C6. A delete by a caller other than the owner of an existing post is
    answered 401, the store is left as it was, and fetching the post
    afterwards still returns it. *)
Theorem delete_post_not_owner req st post :
  Post_findById (params_id req) st = (Normal (Some post), st) ->
  toString (post_user (doc post)) <> user_id req ->
  delete_post req st
  = (Normal (res_status 401 (JsonMsg "User not authorized")), st)
  /\ get_post_by_id req (snd (delete_post req st))
     = (Normal (res_json (JsonPost post)), st).
Proof.
  intros Hf Hne.
  assert (Hd : delete_post req st
               = (Normal (res_status 401 (JsonMsg "User not authorized")), st)).
  { unfold delete_post, try_catch, bind. rewrite Hf. simpl.
    by apply String.eqb_neq in Hne as ->. }
  split; [done|]. rewrite Hd. simpl. by apply get_post_by_id_found.
Qed.

(** ** Creating a post *)

(** C8. Creating a post whose text is empty (or missing) is answered 400
    with the field error of [text], and the store is left as it was: no
    document is persisted. *)
Theorem create_post_empty_text fresh now req st :
  default "" (body_text req) = "" ->
  create_post fresh now req st
  = (Normal (res_status 400
       (JsonErrors [ {| msg := "Text is required"; param := "text" |} ])), st).
Proof.
  intros Ht. unfold create_post, validationResult. by rewrite Ht.
Qed.

(** ** The likes invariant *)

Lemma likes_unique_unshift (p : Document) fresh id :
  likes_unique (doc p) -> id ∉ likers (doc p) ->
  likes_unique
    (doc (set_likes p (unshift (new_like fresh id) (likes (doc p))))).
Proof.
  intros Hu Hni. unfold likes_unique, likers. simpl.
  apply NoDup_cons. by split.
Qed.

Lemma likes_unique_splice (p : Document) id :
  likes_unique (doc p) -> id ∈ likers (doc p) ->
  likes_unique
    (doc (set_likes p (splice (indexOf id (likers (doc p))) 1 (likes (doc p))))).
Proof.
  unfold likes_unique, likers. simpl. intros Hu Hin.
  destruct (splice_indexOf (fun like => toString (like_user like)) id _ Hin)
    as (l1 & y & l2 & Hl & _ & _ & ->).
  rewrite Hl in Hu. rewrite List.map_app in *. simpl in Hu.
  eapply sublist_NoDup; [exact Hu|].
  apply sublist_app; [done|]. by apply sublist_cons.
Qed.

Lemma likes_unique_set_comments (p : Document) l :
  likes_unique (doc p) -> likes_unique (doc (set_comments p l)).
Proof. done. Qed.

Lemma likes_invariant_save st (d : Document) :
  likes_invariant st -> likes_unique (doc d) ->
  likes_invariant {| db_posts := <[doc_id d := doc d]> (db_posts st);
                     db_users := db_users st; db_online := db_online st |}.
Proof. intros Hinv Hu. by apply map_Forall_insert_2. Qed.

Lemma likes_invariant_remove st (d : Document) :
  likes_invariant st ->
  likes_invariant {| db_posts := delete (doc_id d) (db_posts st);
                     db_users := db_users st; db_online := db_online st |}.
Proof. intros Hinv. by apply map_Forall_delete. Qed.

(** What [findById] loads satisfies the invariant of the store. *)
Lemma likes_invariant_lookup st oid p :
  likes_invariant st -> db_posts st !! oid = Some p -> likes_unique p.
Proof. intros Hinv Hp. exact (Hinv oid p Hp). Qed.

#[local] Ltac unfold_store :=
  cbv [try_catch bind ret throw property_of server_error connected
       save save_new remove Post_findById User_findById
       Post_find_sort_date_desc] in *.

#[local] Ltac run_handler :=
  unfold_store;
  repeat (case_match; simplify_eq/=; unfold_store); try done.

Lemma create_post_preserves fresh now req st :
  likes_invariant st -> likes_invariant (snd (create_post fresh now req st)).
Proof.
  intros Hinv. unfold create_post. run_handler.
  apply map_Forall_insert_2; [|done]. apply NoDup_nil_2.
Qed.

Lemma get_posts_preserves req st :
  likes_invariant st -> likes_invariant (snd (get_posts req st)).
Proof. intros Hinv. unfold get_posts. run_handler. Qed.

Lemma get_post_by_id_preserves req st :
  likes_invariant st -> likes_invariant (snd (get_post_by_id req st)).
Proof. intros Hinv. unfold get_post_by_id. run_handler. Qed.

Lemma delete_post_preserves req st :
  likes_invariant st -> likes_invariant (snd (delete_post req st)).
Proof.
  intros Hinv. unfold delete_post. run_handler.
  by apply map_Forall_delete.
Qed.

Lemma put_like_preserves fresh req st :
  likes_invariant st -> likes_invariant (snd (put_like fresh req st)).
Proof.
  intros Hinv. destruct (castObjectId (params_id req)) as [oid|] eqn:Hc;
    [|unfold put_like, try_catch, bind; by rewrite (Post_findById_malformed _ _ Hc)].
  destruct (db_online st) eqn:Ho;
    [|unfold put_like, try_catch, bind; by rewrite (Post_findById_offline _ _ _ Hc Ho)].
  destruct (db_posts st !! oid) as [p|] eqn:Hp;
    [|unfold put_like, try_catch, bind; by rewrite (Post_findById_absent _ _ _ Hc Ho Hp)].
  pose proof (Post_findById_found _ _ _ _ Hc Ho Hp) as Hf.
  destruct (decide (user_id req ∈ likers p)) as [Hin|Hni].
  - unfold put_like, try_catch, bind. rewrite Hf. simpl.
    apply liked_by_filter_pos in Hin. by rewrite Hin.
  - rewrite (put_like_fresh fresh req st _ Hf Hni). simpl.
    apply (likes_invariant_save st (set_likes (mkDocument oid p) _)); [done|].
    apply (likes_unique_unshift (mkDocument oid p)); [|done].
    by apply (likes_invariant_lookup st oid).
Qed.

Lemma put_unlike_preserves req st :
  likes_invariant st -> likes_invariant (snd (put_unlike req st)).
Proof.
  intros Hinv. destruct (castObjectId (params_id req)) as [oid|] eqn:Hc;
    [|unfold put_unlike, try_catch, bind; by rewrite (Post_findById_malformed _ _ Hc)].
  destruct (db_online st) eqn:Ho;
    [|unfold put_unlike, try_catch, bind; by rewrite (Post_findById_offline _ _ _ Hc Ho)].
  destruct (db_posts st !! oid) as [p|] eqn:Hp;
    [|unfold put_unlike, try_catch, bind; by rewrite (Post_findById_absent _ _ _ Hc Ho Hp)].
  pose proof (Post_findById_found _ _ _ _ Hc Ho Hp) as Hf.
  destruct (decide (user_id req ∈ likers p)) as [Hin|Hni].
  - rewrite (put_unlike_liked req st _ Hf Hin). simpl.
    apply (likes_invariant_save st (set_likes (mkDocument oid p) _)); [done|].
    apply (likes_unique_splice (mkDocument oid p)); [|done].
    by apply (likes_invariant_lookup st oid).
  - unfold put_unlike, try_catch, bind. rewrite Hf. simpl.
    apply liked_by_filter_zero in Hni. by rewrite Hni.
Qed.

Lemma post_comment_preserves fresh now req st :
  likes_invariant st -> likes_invariant (snd (post_comment fresh now req st)).
Proof.
  intros Hinv. unfold post_comment. run_handler.
  apply map_Forall_insert_2; [|done].
  match goal with H : _ <$> _ = Some _ |- _ =>
    apply fmap_Some in H as (p & Hp & ->) end.
  simpl. exact (Hinv _ _ Hp).
Qed.

Lemma delete_comment_preserves req st :
  likes_invariant st -> likes_invariant (snd (delete_comment req st)).
Proof.
  intros Hinv. unfold delete_comment. run_handler.
  apply map_Forall_insert_2; [|done].
  match goal with H : _ <$> _ = Some _ |- _ =>
    apply fmap_Some in H as (p & Hp & ->) end.
  simpl. exact (Hinv _ _ Hp).
Qed.

(** C7. Every stored post having at most one like per user identity is
    an invariant of the controller: whatever the route (create, list,
    fetch, delete, like, unlike, add comment, delete comment) and the
    request, if it holds of the store before the request is served, it
    holds of the store after. *)
Theorem router_preserves_likes_invariant r fresh now req st :
  likes_invariant st ->
  likes_invariant (snd (router r fresh now req st)).
Proof.
  intros Hinv. destruct r; simpl.
  - by apply create_post_preserves.
  - by apply get_posts_preserves.
  - by apply get_post_by_id_preserves.
  - by apply delete_post_preserves.
  - by apply put_like_preserves.
  - by apply put_unlike_preserves.
  - by apply post_comment_preserves.
  - by apply delete_comment_preserves.
Qed.

(** ** Listing *)

#[global] Instance date_desc_total : Total date_desc.
Proof. intros d1 d2. unfold date_desc. lia. Qed.

#[global] Instance date_desc_trans : Transitive date_desc.
Proof. intros d1 d2 d3. unfold date_desc. lia. Qed.

Lemma elem_of_all_documents st d :
  d ∈ all_documents st <-> db_posts st !! doc_id d = Some (doc d).
Proof.
  unfold all_documents. rewrite list_elem_of_fmap. split.
  - intros ([k p] & -> & Hin). simpl. by apply elem_of_map_to_list.
  - intros Hp. exists (doc_id d, doc d). split; [by destruct d|].
    by apply elem_of_map_to_list.
Qed.

(** C9. With the store reachable, listing answers 200 with the stored
    posts, all of them and nothing else, ordered by date, most recent
    first; the store is left as it was. *)
Theorem get_posts_sorted req st :
  db_online st = true ->
  exists posts,
    get_posts req st = (Normal (res_json (JsonPosts posts)), st)
    /\ posts ≡ₚ all_documents st
    /\ (forall d, d ∈ posts <-> db_posts st !! doc_id d = Some (doc d))
    /\ List.length posts = size (db_posts st)
    /\ StronglySorted date_desc posts.
Proof.
  intros Ho. exists (merge_sort date_desc (all_documents st)).
  pose proof (merge_sort_Permutation date_desc (all_documents st)) as Hperm.
  split; [|split; [done|split; [|split]]].
  - cbv [get_posts try_catch bind Post_find_sort_date_desc connected ret].
    by rewrite Ho.
  - intros d. rewrite Hperm. apply elem_of_all_documents.
  - rewrite Hperm. unfold all_documents.
    rewrite length_fmap. apply length_map_to_list.
  - apply StronglySorted_merge_sort; apply _.
Qed.

(** ** Deleting a comment *)

(** What the handler does for the author of the comment named in the
    request: it drops the first comment written by the caller, whichever
    comment was named. *)
Lemma delete_comment_by_author req st post comment :
  Post_findById (params_id req) st = (Normal (Some post), st) ->
  List.find (fun c => String.eqb (comment_id c) (params_comment_id req))
            (comments (doc post)) = Some comment ->
  toString (comment_user comment) = user_id req ->
  exists l1 y l2,
    comments (doc post) = l1 ++ y :: l2
    /\ toString (comment_user y) = user_id req
    /\ Forall (fun c => toString (comment_user c) <> user_id req) l1
    /\ delete_comment req st
       = (Normal (res_json (JsonComments (l1 ++ l2))),
          {| db_posts := <[doc_id post := doc (set_comments post (l1 ++ l2))]> (db_posts st);
             db_users := db_users st; db_online := db_online st |}).
Proof.
  intros Hf Hfind Hu.
  pose proof (Post_findById_inv _ _ _ _ Hf) as (_ & _ & Ho & _).
  assert (Hin : user_id req ∈ List.map (fun c => toString (comment_user c))
                                       (comments (doc post))).
  { apply List.find_some in Hfind as [Hin _]. rewrite <- Hu.
    apply list_elem_of_In.
    by apply (List.in_map (fun c => toString (comment_user c))). }
  destruct (splice_indexOf _ _ _ Hin) as (l1 & y & l2 & Hl & Hy & Hni & Hs).
  exists l1, y, l2. repeat split; try done.
  - apply Forall_forall. intros c Hc Heq. apply Hni. rewrite <- Heq.
    apply list_elem_of_In, (List.in_map (fun c => toString (comment_user c))).
    by apply list_elem_of_In.
  - unfold delete_comment, try_catch, bind. rewrite Hf. simpl.
    rewrite Hfind, Hu, String.eqb_refl. simpl.
    rewrite Hs. by rewrite save_online.
Qed.

(** When the named comment is the caller's most recent one on the post,
    it is the one removed. *)
Lemma delete_comment_most_recent req st post l1 comment l2 :
  Post_findById (params_id req) st = (Normal (Some post), st) ->
  comments (doc post) = l1 ++ comment :: l2 ->
  comment_id comment = params_comment_id req ->
  Forall (fun c => comment_id c <> params_comment_id req) l1 ->
  Forall (fun c => toString (comment_user c) <> user_id req) l1 ->
  toString (comment_user comment) = user_id req ->
  fst (delete_comment req st) = Normal (res_json (JsonComments (l1 ++ l2))).
Proof.
  intros Hf Hl Hid Hids Hus Hu.
  pose proof (Post_findById_inv _ _ _ _ Hf) as (_ & _ & Ho & _).
  assert (Hfind : List.find (fun c => String.eqb (comment_id c) (params_comment_id req))
                            (comments (doc post)) = Some comment).
  { rewrite Hl. clear Hl Hus. induction Hids as [|c l1 Hc _ IH]; simpl.
    - by rewrite Hid, String.eqb_refl.
    - by apply String.eqb_neq in Hc as ->. }
  assert (Hni : user_id req ∉ List.map (fun c => toString (comment_user c)) l1).
  { clear Hl Hids Hfind. induction Hus as [|c l1 Hc _ IH]; simpl.
    - apply not_elem_of_nil.
    - apply not_elem_of_cons. split; [congruence | done]. }
  unfold delete_comment, try_catch, bind. rewrite Hf. simpl.
  rewrite Hfind, Hu, String.eqb_refl. simpl. rewrite Hl.
  unfold indexOf.
  rewrite (indexOf_from_first (fun c => toString (comment_user c)) _ l1 comment l2 0 Hni Hu).
  rewrite Z.add_0_l, splice_one. by rewrite save_online.
Qed.

(** C1, on the sample store.  [alice] wrote both comments of the post and
    asks to delete the older one: the handler answers 200 with the older
    comment still there, and it is the newer one that is gone from the
    stored post. *)
Theorem delete_comment_removes_other_comment :
  let req := {| user_id := Sample.alice; params_id := Sample.hello_id;
                params_comment_id := comment_id Sample.older;
                body_text := None |} in
  comments <$> (db_posts Sample.db !! mkObjectId Sample.hello_id)
  = Some [Sample.newer; Sample.older]
  /\ fst (delete_comment req Sample.db)
     = Normal (res_json (JsonComments [Sample.older]))
  /\ comments <$> (db_posts (snd (delete_comment req Sample.db))
                     !! mkObjectId Sample.hello_id)
     = Some [Sample.older].
Proof. vm_compute. done. Qed.

(** C2, on the sample store.  Fetching a post by a well-formed identifier
    that no stored post has is answered 500 'Server error', not 404. *)
Theorem get_post_by_id_missing_answers_500 :
  castObjectId Sample.nobody_id = Some (mkObjectId Sample.nobody_id)
  /\ db_posts Sample.db !! mkObjectId Sample.nobody_id = None
  /\ get_post_by_id (Sample.request Sample.alice Sample.nobody_id) Sample.db
     = (Normal (res_status 500 (Text "Server error")), Sample.db).
Proof.
  split; [done|]. split; [done|].
  by apply (get_post_by_id_absent _ _ (mkObjectId Sample.nobody_id)).
Qed.

(** ** The theorems at work on the sample store *)

Lemma sample_hello_found caller :
  Post_findById (params_id (Sample.request caller Sample.hello_id)) Sample.db
  = (Normal (Some Sample.hello_doc), Sample.db).
Proof. vm_compute. reflexivity. Defined.

Lemma sample_likes_invariant : likes_invariant Sample.db.
Proof.
  unfold likes_invariant, Sample.db. simpl.
  apply map_Forall_insert_2; [apply NoDup_singleton|].
  apply map_Forall_insert_2; [apply NoDup_nil_2|].
  apply map_Forall_empty.
Defined.

(** [bob], who likes the post already, likes it again. *)
Lemma put_like_already_liked_witness :
  (Sample.bob ∈ likers Sample.hello)
  /\ put_like Sample.fresh_id (Sample.request Sample.bob Sample.hello_id) Sample.db
     = (Normal (res_status 400 (JsonMsg "Post already liked")), Sample.db).
Proof.
  assert (Hin : Sample.bob ∈ likers (doc Sample.hello_doc))
    by apply list_elem_of_here.
  split; [exact Hin|].
  exact (put_like_already_liked Sample.fresh_id
           (Sample.request Sample.bob Sample.hello_id) Sample.db Sample.hello_doc
           (sample_hello_found Sample.bob) Hin).
Defined.

Lemma sample_carol_not_liker : Sample.carol ∉ likers Sample.hello.
Proof.
  apply not_elem_of_cons. split; [discriminate | apply not_elem_of_nil].
Defined.

(** [carol], who does not like the post, unlikes it. *)
Lemma put_unlike_not_liked_witness :
  (Sample.carol ∉ likers Sample.hello)
  /\ put_unlike (Sample.request Sample.carol Sample.hello_id) Sample.db
     = (Normal (res_status 400 (JsonMsg "Post has not yet being liked")), Sample.db).
Proof.
  split; [exact sample_carol_not_liker|].
  exact (put_unlike_not_liked
           (Sample.request Sample.carol Sample.hello_id) Sample.db Sample.hello_doc
           (sample_hello_found Sample.carol) sample_carol_not_liker).
Defined.

(** [carol] likes the post, then unlikes it. *)
Lemma like_then_unlike_round_trip_witness :
  exists like st1,
    put_like Sample.fresh_id (Sample.request Sample.carol Sample.hello_id) Sample.db
    = (Normal (res_json (JsonLikes (like :: [Sample.bobs_like]))), st1)
    /\ toString (like_user like) = Sample.carol
    /\ put_unlike (Sample.request Sample.carol Sample.hello_id) st1
       = (Normal (res_json (JsonLikes [Sample.bobs_like])), Sample.db).
Proof.
  exact (like_then_unlike_round_trip Sample.fresh_id
           (Sample.request Sample.carol Sample.hello_id) Sample.db Sample.hello_doc
           (sample_hello_found Sample.carol) sample_carol_not_liker).
Defined.

(** [bob] tries to delete the post of [alice]. *)
Lemma delete_post_not_owner_witness :
  delete_post (Sample.request Sample.bob Sample.hello_id) Sample.db
  = (Normal (res_status 401 (JsonMsg "User not authorized")), Sample.db)
  /\ get_post_by_id (Sample.request Sample.bob Sample.hello_id)
       (snd (delete_post (Sample.request Sample.bob Sample.hello_id) Sample.db))
     = (Normal (res_json (JsonPost Sample.hello_doc)), Sample.db).
Proof.
  apply (delete_post_not_owner
           (Sample.request Sample.bob Sample.hello_id) Sample.db Sample.hello_doc
           (sample_hello_found Sample.bob)).
  discriminate.
Defined.

(** [carol] likes the post: the invariant still holds of the store. *)
Lemma router_preserves_likes_invariant_witness :
  likes_invariant Sample.db
  /\ likes_invariant
       (snd (router PUT_posts_like_id Sample.fresh_id 30
               (Sample.request Sample.carol Sample.hello_id) Sample.db)).
Proof.
  split; [exact sample_likes_invariant|].
  exact (router_preserves_likes_invariant PUT_posts_like_id Sample.fresh_id 30
           (Sample.request Sample.carol Sample.hello_id) Sample.db
           sample_likes_invariant).
Defined.

(** [alice] posts an empty text. *)
Lemma create_post_empty_text_witness :
  let req := {| user_id := Sample.alice; params_id := ""; params_comment_id := "";
                body_text := Some "" |} in
  create_post Sample.fresh_id 30 req Sample.db
  = (Normal (res_status 400
       (JsonErrors [ {| msg := "Text is required"; param := "text" |} ])), Sample.db).
Proof.
  intros req. apply (create_post_empty_text Sample.fresh_id 30 req Sample.db).
  reflexivity.
Defined.

(** Listing the two posts of the sample store. *)
Lemma get_posts_sorted_witness :
  db_online Sample.db = true
  /\ exists posts,
       get_posts (Sample.request Sample.alice "") Sample.db
       = (Normal (res_json (JsonPosts posts)), Sample.db)
       /\ posts ≡ₚ all_documents Sample.db
       /\ (forall d, d ∈ posts <-> db_posts Sample.db !! doc_id d = Some (doc d))
       /\ List.length posts = size (db_posts Sample.db)
       /\ StronglySorted date_desc posts.
Proof.
  split; [reflexivity|].
  apply (get_posts_sorted (Sample.request Sample.alice "") Sample.db).
  reflexivity.
Defined.

(** [alice] likes and unlikes a post that does not exist. *)
Lemma like_unlike_missing_post_witness :
  put_like Sample.fresh_id (Sample.request Sample.alice Sample.nobody_id) Sample.db
  = (Normal (res_status 500 (Text "Server error")), Sample.db)
  /\ put_unlike (Sample.request Sample.alice Sample.nobody_id) Sample.db
     = (Normal (res_status 500 (Text "Server error")), Sample.db).
Proof.
  apply (like_unlike_missing_post Sample.fresh_id
           (Sample.request Sample.alice Sample.nobody_id) Sample.db
           (mkObjectId Sample.nobody_id)).
  - reflexivity.
  - reflexivity.
Defined.

(** The listing of the sample store, most recent first. *)
Example get_posts_sample :
  fst (get_posts (Sample.request Sample.alice "") Sample.db)
  = Normal (res_json (JsonPosts [ mkDocument (mkObjectId Sample.later_id) Sample.later;
                                  Sample.hello_doc ])).
Proof. vm_compute. reflexivity. Qed.

(** A malformed identifier is answered 404 by the fetch. *)
Example get_post_by_id_malformed_sample :
  get_post_by_id (Sample.request Sample.alice "not-an-id") Sample.db
  = (Normal (res_status 404 (JsonMsg "Post not found")), Sample.db).
Proof. by apply get_post_by_id_malformed. Qed.

(** The scenario of the contract: create, like, unlike. *)
Example create_like_unlike_scenario :
  let create := {| user_id := Sample.alice; params_id := ""; params_comment_id := "";
                   body_text := Some "hello" |} in
  let created :=
    {| doc_id := mkObjectId Sample.nobody_id;
       doc := {| post_text := "hello"; post_name := "Alice"; post_avatar := "a.png";
                 post_user := mkObjectId Sample.alice; likes := []; comments := [];
                 date := 30 |} |} in
  let like := Sample.request Sample.bob Sample.nobody_id in
  let st1 := snd (create_post (mkObjectId Sample.nobody_id) 30 create Sample.db) in
  let st2 := snd (put_like Sample.fresh_id like st1) in
  fst (create_post (mkObjectId Sample.nobody_id) 30 create Sample.db)
  = Normal (res_json (JsonPost created))
  /\ fst (put_like Sample.fresh_id like st1)
     = Normal (res_json (JsonLikes [ new_like Sample.fresh_id Sample.bob ]))
  /\ fst (put_unlike like st2) = Normal (res_json (JsonLikes [])).
Proof. vm_compute. done. Qed.

(** * Further properties of the handlers *)

(** ** Creating and fetching *)

Lemma create_post_fresh fresh now req st text user :
  body_text req = Some text -> text <> "" ->
  db_online st = true ->
  db_users st !! mkObjectId (user_id req) = Some user ->
  db_posts st !! fresh = None ->
  create_post fresh now req st
  = (Normal (res_json (JsonPost
       (new_Post fresh now text (user_name user) (user_avatar user) (user_id req)))),
     {| db_posts := <[fresh := doc (new_Post fresh now text (user_name user)
                                      (user_avatar user) (user_id req))]> (db_posts st);
        db_users := db_users st; db_online := db_online st |}).
Proof.
  intros Hb Ht Ho Hu Hp. unfold create_post, validationResult. rewrite Hb. simpl.
  destruct text as [|c text]; [done|]. simpl.
  cbv [try_catch bind User_findById connected property_of ret save_new].
  repeat (progress (rewrite ?Ho, ?Hu, ?Hp; simpl)). done.
Qed.

(** X1. A post with a non-empty text, by a caller the store knows, under
    an identifier not yet in use: the handler answers 200 with the new
    post, which carries the caller as owner, the caller's name and avatar
    as stored, no likes and no comments; the post is stored under its
    identifier and every other post is left as it was. *)
Theorem create_post_stores_post fresh now req st text user :
  body_text req = Some text -> text <> "" ->
  db_online st = true ->
  db_users st !! mkObjectId (user_id req) = Some user ->
  db_posts st !! fresh = None ->
  exists post st',
    create_post fresh now req st = (Normal (res_json (JsonPost post)), st')
    /\ doc_id post = fresh
    /\ post_text (doc post) = text
    /\ post_name (doc post) = user_name user
    /\ post_avatar (doc post) = user_avatar user
    /\ toString (post_user (doc post)) = user_id req
    /\ likes (doc post) = [] /\ comments (doc post) = []
    /\ db_posts st' !! fresh = Some (doc post)
    /\ (forall oid, oid <> fresh -> db_posts st' !! oid = db_posts st !! oid).
Proof.
  intros Hb Ht Ho Hu Hp. eexists _, _.
  split; [by apply (create_post_fresh fresh now req st text user)|].
  simpl. repeat split.
  - apply lookup_insert_eq.
  - intros oid Hne. by apply lookup_insert_ne.
Qed.

(** X2. A post just created can be fetched: get-by-id with the string
    form of its identifier answers 200 with the very post the creation
    answered. *)
Theorem create_then_get_post fresh now req st text user req' :
  body_text req = Some text -> text <> "" ->
  db_online st = true ->
  db_users st !! mkObjectId (user_id req) = Some user ->
  db_posts st !! fresh = None ->
  castObjectId (params_id req') = Some fresh ->
  exists post st',
    create_post fresh now req st = (Normal (res_json (JsonPost post)), st')
    /\ get_post_by_id req' st' = (Normal (res_json (JsonPost post)), st').
Proof.
  intros Hb Ht Ho Hu Hp Hc. eexists _, _.
  split; [by apply (create_post_fresh fresh now req st text user)|].
  apply get_post_by_id_found.
  match goal with |- _ = (Normal (Some ?d), _) =>
    change d with (mkDocument fresh (doc d)) end.
  apply Post_findById_found; [done | done | apply lookup_insert_eq].
Qed.

(** X3. A creation by a caller the store does not know (the user record
    is gone) is answered 500 and stores nothing. *)
Theorem create_post_unknown_user fresh now req st :
  db_users st !! mkObjectId (user_id req) = None ->
  default "" (body_text req) <> "" ->
  create_post fresh now req st
  = (Normal (res_status 500 (Text "Server error")), st).
Proof.
  intros Hu Ht. unfold create_post, validationResult.
  destruct (default "" (body_text req)) as [|c text]; [done|]. simpl.
  cbv [try_catch bind User_findById connected property_of ret throw server_error].
  destruct (db_online st); [|done]. by rewrite Hu.
Qed.


(** ** Deleting a post, further *)

(** X5. The owner deletes the post: the handler answers 200 'Post
    removed', the post is gone from the store (a later [findById] yields
    [null]) and every other post is left as it was. *)
Theorem delete_post_by_owner req st post :
  Post_findById (params_id req) st = (Normal (Some post), st) ->
  toString (post_user (doc post)) = user_id req ->
  exists st',
    delete_post req st = (Normal (res_json (JsonMsg "Post removed")), st')
    /\ db_posts st' !! doc_id post = None
    /\ (forall oid, oid <> doc_id post -> db_posts st' !! oid = db_posts st !! oid)
    /\ Post_findById (params_id req) st' = (Normal None, st').
Proof.
  intros Hf Hu. pose proof (Post_findById_inv _ _ _ _ Hf) as (_ & Hc & Ho & Hp).
  eexists. split.
  - unfold delete_post, try_catch, bind. rewrite Hf. simpl.
    rewrite Hu, String.eqb_refl. simpl.
    cbv [remove bind connected ret]. rewrite Ho. simpl. reflexivity.
  - split; [apply lookup_delete_eq|]. split.
    + intros oid Hne. by apply lookup_delete_ne.
    + apply (Post_findById_absent _ _ (doc_id post)); [done | done |].
      apply lookup_delete_eq.
Qed.

(** X6. Whatever the request, deleting never removes or alters a post
    whose owner is not the caller. *)
Theorem delete_post_spares_others req st oid p :
  db_posts st !! oid = Some p ->
  toString (post_user p) <> user_id req ->
  db_posts (snd (delete_post req st)) !! oid = Some p.
Proof.
  intros Hp Hne. unfold delete_post. run_handler.
  match goal with H : _ <$> _ = Some _ |- _ =>
    apply fmap_Some in H as (q & Hq & ->) end.
  simpl in *. rewrite lookup_delete_ne; [done|].
  intros <-. rewrite Hq in Hp. injection Hp as ->.
  match goal with H : negb (String.eqb _ _) = false |- _ =>
    apply negb_false_iff, String.eqb_eq in H end.
  done.
Qed.


(** X8. For a well-formed identifier of no stored post, delete,
    delete-comment and (with a text) add-comment answer 500, not 404, and
    store nothing. *)
Theorem missing_post_server_error fresh now req st oid :
  castObjectId (params_id req) = Some oid ->
  db_posts st !! oid = None ->
  delete_post req st = (Normal (res_status 500 (Text "Server error")), st)
  /\ delete_comment req st = (Normal (res_status 500 (Text "Server error")), st)
  /\ (default "" (body_text req) <> "" ->
      post_comment fresh now req st
      = (Normal (res_status 500 (Text "Server error")), st)).
Proof.
  intros Hc Hp.
  assert (Hf : exists c, Post_findById (params_id req) st = (c, st)
                         /\ (c = Normal None \/ exists e, c = Throw e)).
  { destruct (db_online st) eqn:Ho.
    - rewrite (Post_findById_absent _ _ _ Hc Ho Hp). eauto.
    - rewrite (Post_findById_offline _ _ _ Hc Ho). eauto. }
  destruct Hf as (c & Hf & Hcase).
  repeat split.
  - unfold delete_post, try_catch, bind. rewrite Hf.
    by destruct Hcase as [->|[e ->]].
  - unfold delete_comment, try_catch, bind. rewrite Hf.
    by destruct Hcase as [->|[e ->]].
  - intros Ht. unfold post_comment, validationResult.
    destruct (default "" (body_text req)); [done|]. simpl.
    cbv [try_catch bind User_findById connected].
    destruct (db_online st); [|done]. rewrite Hf.
    destruct Hcase as [->|[e ->]]; [|done].
    by destruct (db_users st !! _).
Qed.

(** ** Likes, further *)

Lemma filter_keeps_all {A} (f : A -> bool) (l : list A) :
  Forall (fun x => f x = true) l -> List.filter f l = l.
Proof.
  induction 1 as [|x l Hx _ IH]; simpl; [done|]. by rewrite Hx, IH.
Qed.

(** With one entry per key, dropping the entry of [x] is filtering the
    key [x] out. *)
Lemma filter_out_unique {A} (f : A -> string) x (l1 : list A) y l2 :
  NoDup (List.map f (l1 ++ y :: l2)) -> f y = x ->
  List.filter (fun z => negb (String.eqb (f z) x)) (l1 ++ y :: l2) = l1 ++ l2.
Proof.
  intros Hnd Hy. rewrite List.map_app in Hnd. simpl in Hnd.
  apply NoDup_app in Hnd as (_ & Hl1 & Hnd).
  apply NoDup_cons in Hnd as (Hl2 & _).
  rewrite List.filter_app. simpl. rewrite Hy, String.eqb_refl. simpl.
  rewrite !filter_keeps_all; [done | |].
  - apply Forall_forall. intros z Hz. apply negb_true_iff, String.eqb_neq.
    intros Heq. apply Hl2. rewrite Hy, <- Heq.
    apply list_elem_of_In, (List.in_map f), list_elem_of_In, Hz.
  - apply Forall_forall. intros z Hz. apply negb_true_iff, String.eqb_neq.
    intros Heq. apply (Hl1 (f z)).
    + apply list_elem_of_In, (List.in_map f), list_elem_of_In, Hz.
    + rewrite Heq, <- Hy. apply list_elem_of_here.
Qed.

Lemma not_elem_of_filter_out {A} (f : A -> string) x (l : list A) :
  x ∉ List.map f (List.filter (fun z => negb (String.eqb (f z) x)) l).
Proof.
  induction l as [|z l IH]; simpl; [apply not_elem_of_nil|].
  destruct (String.eqb_spec (f z) x) as [Heq|Hne]; simpl; [done|].
  apply not_elem_of_cons. split; [congruence | done].
Qed.

(** X9. A second like by the same caller is refused: after a like that
    went through, the caller heads the likes of the stored post, and
    liking again answers 400 and changes nothing. *)
Theorem like_twice_rejected fresh fresh' req st post :
  Post_findById (params_id req) st = (Normal (Some post), st) ->
  user_id req ∉ likers (doc post) ->
  exists st1 p1,
    snd (put_like fresh req st) = st1
    /\ db_posts st1 !! doc_id post = Some p1
    /\ likers p1 = user_id req :: likers (doc post)
    /\ put_like fresh' req st1
       = (Normal (res_status 400 (JsonMsg "Post already liked")), st1).
Proof.
  intros Hf Hni. pose proof (Post_findById_inv _ _ _ _ Hf) as (_ & Hc & Ho & Hp).
  rewrite (put_like_fresh fresh req st post Hf Hni). simpl.
  eexists _, _. split; [reflexivity|]. split; [apply lookup_insert_eq|].
  split; [reflexivity|].
  match goal with |- put_like _ _ ?s = _ => set (st1 := s) end.
  set (post1 := set_likes post (new_like fresh (user_id req) :: likes (doc post))).
  assert (Hf1 : Post_findById (params_id req) st1 = (Normal (Some post1), st1)).
  { change post1 with (mkDocument (doc_id post) (doc post1)).
    apply Post_findById_found; [done | done | apply lookup_insert_eq]. }
  unfold put_like, try_catch, bind. rewrite Hf1. simpl.
  unfold liked_by at 1. simpl. by rewrite String.eqb_refl.
Qed.

Lemma put_unlike_unique req st post :
  Post_findById (params_id req) st = (Normal (Some post), st) ->
  likes_unique (doc post) ->
  user_id req ∈ likers (doc post) ->
  put_unlike req st
  = (Normal (res_json (JsonLikes
       (List.filter (fun like => negb (liked_by (user_id req) like))
                    (likes (doc post))))),
     {| db_posts :=
          <[doc_id post :=
              doc (set_likes post
                     (List.filter (fun like => negb (liked_by (user_id req) like))
                                  (likes (doc post))))]> (db_posts st);
        db_users := db_users st; db_online := db_online st |}).
Proof.
  intros Hf Hu Hin. rewrite (put_unlike_liked req st post Hf Hin). simpl.
  unfold likes_unique, likers in *.
  destruct (splice_indexOf (fun like => toString (like_user like)) _ _ Hin)
    as (l1 & y & l2 & Hl & Hy & _ & ->).
  rewrite Hl in Hu |- *.
  unfold liked_by.
  by rewrite (filter_out_unique (fun like => toString (like_user like))
                (user_id req) l1 y l2 Hu Hy).
Qed.

(** X10. On a post with at most one like per user, an unlike by a user
    who likes it answers 200 with the likes of all the other users, in
    their order, one entry fewer; these are the likes then stored, and the
    caller is no longer among them. *)
Theorem put_unlike_removes_caller req st post :
  Post_findById (params_id req) st = (Normal (Some post), st) ->
  likes_unique (doc post) ->
  user_id req ∈ likers (doc post) ->
  exists rest st' p',
    put_unlike req st = (Normal (res_json (JsonLikes rest)), st')
    /\ rest = List.filter (fun like => negb (liked_by (user_id req) like))
                          (likes (doc post))
    /\ S (List.length rest) = List.length (likes (doc post))
    /\ db_posts st' !! doc_id post = Some p'
    /\ likes p' = rest
    /\ user_id req ∉ likers p'.
Proof.
  intros Hf Hu Hin. eexists _, _, _.
  split; [by apply put_unlike_unique|]. split; [reflexivity|].
  split; [|split; [apply lookup_insert_eq|split; [reflexivity|]]].
  - unfold likes_unique, likers in *.
    destruct (first_occurrence (fun like => toString (like_user like)) _ _ Hin)
      as (l1 & y & l2 & Hl & Hy & _).
    rewrite Hl in Hu |- *. unfold liked_by.
    rewrite (filter_out_unique (fun like => toString (like_user like))
               (user_id req) l1 y l2 Hu Hy).
    rewrite !length_app. simpl. lia.
  - unfold likers. simpl.
    apply (not_elem_of_filter_out (fun like => toString (like_user like))).
Qed.

(** X11. A second unlike by the same caller is refused: after an unlike
    that went through on a post with at most one like per user, unliking
    again answers 400 and changes nothing. *)
Theorem unlike_twice_rejected req st post :
  Post_findById (params_id req) st = (Normal (Some post), st) ->
  likes_unique (doc post) ->
  user_id req ∈ likers (doc post) ->
  exists st1,
    snd (put_unlike req st) = st1
    /\ put_unlike req st1
       = (Normal (res_status 400 (JsonMsg "Post has not yet being liked")), st1).
Proof.
  intros Hf Hu Hin. pose proof (Post_findById_inv _ _ _ _ Hf) as (_ & Hc & Ho & Hp).
  rewrite (put_unlike_unique req st post Hf Hu Hin). simpl.
  eexists. split; [reflexivity|].
  match goal with |- put_unlike _ ?s = _ => set (st1 := s) end.
  set (rest := List.filter (fun like => negb (liked_by (user_id req) like))
                           (likes (doc post))).
  assert (Hf1 : Post_findById (params_id req) st1
                = (Normal (Some (set_likes post rest)), st1)).
  { change (set_likes post rest)
      with (mkDocument (doc_id post) (doc (set_likes post rest))).
    apply Post_findById_found; [done | done | apply lookup_insert_eq]. }
  unfold put_unlike, try_catch, bind. rewrite Hf1. simpl.
  assert (Hni : user_id req ∉ List.map (fun like => toString (like_user like)) rest)
    by apply (not_elem_of_filter_out (fun like => toString (like_user like))).
  apply liked_by_filter_zero in Hni. by rewrite Hni.
Qed.

(** ** Comments, further *)

Lemma post_comment_fresh fresh now req st text user post :
  body_text req = Some text -> text <> "" ->
  db_users st !! mkObjectId (user_id req) = Some user ->
  Post_findById (params_id req) st = (Normal (Some post), st) ->
  post_comment fresh now req st
  = (Normal (res_json (JsonComments
       (new_comment fresh now text (user_name user) (user_avatar user) (user_id req)
          :: comments (doc post)))),
     {| db_posts :=
          <[doc_id post :=
              doc (set_comments post
                     (new_comment fresh now text (user_name user) (user_avatar user)
                                  (user_id req) :: comments (doc post)))]>
            (db_posts st);
        db_users := db_users st; db_online := db_online st |}).
Proof.
  intros Hb Ht Hu Hf. pose proof (Post_findById_inv _ _ _ _ Hf) as (_ & _ & Ho & _).
  unfold post_comment, validationResult. rewrite Hb. simpl.
  destruct text as [|c text]; [done|]. simpl.
  assert (Hfu : User_findById (user_id req) st = (Normal (Some user), st)).
  { cbv [User_findById bind connected]. by rewrite Ho, Hu. }
  unfold try_catch, bind. rewrite Hfu, Hf. simpl.
  by rewrite save_online.
Qed.

(** X12. A comment with a non-empty text, by a caller the store knows,
    on an existing post: the handler answers 200 with the new comment in
    front of the earlier ones; the comment carries the text, the caller as
    author and the caller's name and avatar as stored; the post is stored
    with these comments and its likes are as they were. *)
Theorem post_comment_prepends fresh now req st text user post :
  body_text req = Some text -> text <> "" ->
  db_users st !! mkObjectId (user_id req) = Some user ->
  Post_findById (params_id req) st = (Normal (Some post), st) ->
  exists c st' p',
    post_comment fresh now req st
    = (Normal (res_json (JsonComments (c :: comments (doc post)))), st')
    /\ comment_text c = text
    /\ toString (comment_user c) = user_id req
    /\ comment_name c = user_name user
    /\ comment_avatar c = user_avatar user
    /\ comment_id c = toString fresh
    /\ db_posts st' !! doc_id post = Some p'
    /\ comments p' = c :: comments (doc post)
    /\ likes p' = likes (doc post).
Proof.
  intros Hb Ht Hu Hf. eexists _, _, _.
  split; [by apply (post_comment_fresh fresh now req st text user post)|].
  do 5 (split; [reflexivity|]).
  split; [apply lookup_insert_eq|]. split; reflexivity.
Qed.

(** X13. A comment whose text is empty (or missing) is answered 400 with
    the field error of [text], whatever the post identifier, and nothing
    is stored. *)
Theorem post_comment_empty_text fresh now req st :
  default "" (body_text req) = "" ->
  post_comment fresh now req st
  = (Normal (res_status 400
       (JsonErrors [ {| msg := "Text is required"; param := "text" |} ])), st).
Proof.
  intros Ht. unfold post_comment, validationResult. by rewrite Ht.
Qed.

(** X14. A comment, then its deletion by its author under the identifier
    it was given: the deletion answers 200 with the comments as they were
    before, and the store is back in its earlier state. *)
Theorem comment_then_delete_round_trip fresh now req st text user post req' :
  body_text req = Some text -> text <> "" ->
  db_users st !! mkObjectId (user_id req) = Some user ->
  Post_findById (params_id req) st = (Normal (Some post), st) ->
  params_id req' = params_id req ->
  user_id req' = user_id req ->
  params_comment_id req' = toString fresh ->
  delete_comment req' (snd (post_comment fresh now req st))
  = (Normal (res_json (JsonComments (comments (doc post)))), st).
Proof.
  intros Hb Ht Hu Hf Hid Huid Hcid.
  pose proof (Post_findById_inv _ _ _ _ Hf) as (_ & Hc & Ho & Hp).
  rewrite (post_comment_fresh fresh now req st text user post Hb Ht Hu Hf). simpl.
  set (c := new_comment fresh now text (user_name user) (user_avatar user) (user_id req)).
  set (post1 := set_comments post (c :: comments (doc post))).
  match goal with |- delete_comment _ ?s = _ => set (st1 := s) end.
  assert (Hf1 : Post_findById (params_id req') st1 = (Normal (Some post1), st1)).
  { rewrite Hid. change post1 with (mkDocument (doc_id post) (doc post1)).
    apply Post_findById_found; [done | done | apply lookup_insert_eq]. }
  unfold delete_comment, try_catch, bind. rewrite Hf1. simpl.
  unfold comment_id at 1. simpl. rewrite Hcid, String.eqb_refl.
  rewrite Huid, String.eqb_refl. simpl.
  unfold indexOf. simpl. rewrite String.eqb_refl.
  assert (Hs : splice 0 1 (c :: comments (doc post)) = comments (doc post))
    by apply (splice_one [] c (comments (doc post))).
  rewrite Hs. rewrite save_online by done. simpl. f_equal.
  destruct st as [posts users online], post as [oid p], p. simpl in *.
  f_equal. rewrite insert_insert_eq. by apply insert_id.
Qed.

(** X15. Deleting a comment whose identifier no comment of the post has
    is answered 404 'Comment does not exist', and nothing is stored. *)
Theorem delete_comment_unknown_comment req st post :
  Post_findById (params_id req) st = (Normal (Some post), st) ->
  Forall (fun c => comment_id c <> params_comment_id req) (comments (doc post)) ->
  delete_comment req st
  = (Normal (res_status 404 (JsonMsg "Comment does not exist")), st).
Proof.
  intros Hf Hall. unfold delete_comment, try_catch, bind. rewrite Hf. simpl.
  assert (Hfind : List.find (fun c => String.eqb (comment_id c) (params_comment_id req))
                            (comments (doc post)) = None).
  { induction Hall as [|c l Hc _ IH]; simpl; [done|].
    by apply String.eqb_neq in Hc as ->. }
  by rewrite Hfind.
Qed.

(** X16. Deleting a comment that someone else wrote is answered 401
    'User not authorized', and nothing is stored. *)
Theorem delete_comment_not_author req st post comment :
  Post_findById (params_id req) st = (Normal (Some post), st) ->
  List.find (fun c => String.eqb (comment_id c) (params_comment_id req))
            (comments (doc post)) = Some comment ->
  toString (comment_user comment) <> user_id req ->
  delete_comment req st
  = (Normal (res_status 401 (JsonMsg "User not authorized")), st).
Proof.
  intros Hf Hfind Hne. unfold delete_comment, try_catch, bind. rewrite Hf. simpl.
  rewrite Hfind. by apply String.eqb_neq in Hne as ->.
Qed.

(** X17. The author deletes a comment that no comment of the same author
    precedes on the post (and that is the first to carry its identifier):
    the handler answers 200 with the other comments, in their order, and
    stores the post with exactly that comment removed. *)
Theorem delete_comment_first_of_author req st post l1 comment l2 :
  Post_findById (params_id req) st = (Normal (Some post), st) ->
  comments (doc post) = l1 ++ comment :: l2 ->
  comment_id comment = params_comment_id req ->
  Forall (fun c => comment_id c <> params_comment_id req) l1 ->
  Forall (fun c => toString (comment_user c) <> user_id req) l1 ->
  toString (comment_user comment) = user_id req ->
  delete_comment req st
  = (Normal (res_json (JsonComments (l1 ++ l2))),
     {| db_posts := <[doc_id post := doc (set_comments post (l1 ++ l2))]> (db_posts st);
        db_users := db_users st; db_online := db_online st |}).
Proof.
  intros Hf Hl Hid Hids Hus Hu.
  pose proof (Post_findById_inv _ _ _ _ Hf) as (_ & _ & Ho & _).
  assert (Hfind : List.find (fun c => String.eqb (comment_id c) (params_comment_id req))
                            (comments (doc post)) = Some comment).
  { rewrite Hl. clear Hl Hus. induction Hids as [|c l1 Hc _ IH]; simpl.
    - by rewrite Hid, String.eqb_refl.
    - by apply String.eqb_neq in Hc as ->. }
  assert (Hni : user_id req ∉ List.map (fun c => toString (comment_user c)) l1).
  { clear Hl Hids Hfind. induction Hus as [|c l1 Hc _ IH]; simpl.
    - apply not_elem_of_nil.
    - apply not_elem_of_cons. split; [congruence | done]. }
  unfold delete_comment, try_catch, bind. rewrite Hf. simpl.
  rewrite Hfind, Hu, String.eqb_refl. simpl. rewrite Hl.
  unfold indexOf.
  rewrite (indexOf_from_first (fun c => toString (comment_user c)) _ l1 comment l2 0 Hni Hu).
  rewrite Z.add_0_l, splice_one. by rewrite save_online.
Qed.

(** ** What a request can do to the store *)

#[local] Ltac loaded_post :=
  match goal with H : _ <$> _ = Some _ |- _ =>
    let p := fresh "p" in let Hp := fresh "Hp" in
    apply fmap_Some in H as (p & Hp & ->); simpl in *
  end.

Lemma router_keeps_users r fresh now req st :
  db_users (snd (router r fresh now req st)) = db_users st
  /\ db_online (snd (router r fresh now req st)) = db_online st.
Proof.
  destruct r; simpl;
    [unfold create_post | unfold get_posts | unfold get_post_by_id
     | unfold delete_post | unfold put_like | unfold put_unlike
     | unfold post_comment | unfold delete_comment];
    run_handler.
Qed.

Lemma get_posts_read_only req st : snd (get_posts req st) = st.
Proof. unfold get_posts. by run_handler. Qed.

Lemma get_post_by_id_read_only req st : snd (get_post_by_id req st) = st.
Proof. unfold get_post_by_id. by run_handler. Qed.

Lemma create_post_effect fresh now req st :
  db_posts (snd (create_post fresh now req st)) = db_posts st
  \/ exists p, db_posts st !! fresh = None
       /\ db_posts (snd (create_post fresh now req st)) = <[fresh := p]> (db_posts st)
       /\ likes p = [] /\ comments p = [].
Proof.
  unfold create_post. run_handler; try (by left).
  right. eexists. by repeat split.
Qed.

Lemma delete_post_effect req st :
  db_posts (snd (delete_post req st)) = db_posts st
  \/ exists oid p, castObjectId (params_id req) = Some oid
       /\ db_posts st !! oid = Some p
       /\ toString (post_user p) = user_id req
       /\ db_posts (snd (delete_post req st)) = delete oid (db_posts st).
Proof.
  unfold delete_post. run_handler; try (by left).
  right. loaded_post. eexists _, _. repeat split; try done.
  match goal with H : negb (String.eqb _ _) = false |- _ =>
    by apply negb_false_iff, String.eqb_eq in H end.
Qed.

Lemma put_like_effect fresh req st :
  db_posts (snd (put_like fresh req st)) = db_posts st
  \/ exists oid p l, castObjectId (params_id req) = Some oid
       /\ db_posts st !! oid = Some p
       /\ db_posts (snd (put_like fresh req st))
          = <[oid := doc (set_likes (mkDocument oid p) l)]> (db_posts st).
Proof.
  unfold put_like. run_handler; try (by left).
  right. loaded_post. eexists _, _, _. by repeat split.
Qed.

Lemma put_unlike_effect req st :
  db_posts (snd (put_unlike req st)) = db_posts st
  \/ exists oid p l, castObjectId (params_id req) = Some oid
       /\ db_posts st !! oid = Some p
       /\ db_posts (snd (put_unlike req st))
          = <[oid := doc (set_likes (mkDocument oid p) l)]> (db_posts st).
Proof.
  unfold put_unlike. run_handler; try (by left).
  right. loaded_post. eexists _, _, _. by repeat split.
Qed.

Lemma post_comment_effect fresh now req st :
  db_posts (snd (post_comment fresh now req st)) = db_posts st
  \/ exists oid p c, castObjectId (params_id req) = Some oid
       /\ db_posts st !! oid = Some p
       /\ toString (comment_user c) = user_id req
       /\ db_posts (snd (post_comment fresh now req st))
          = <[oid := doc (set_comments (mkDocument oid p) (c :: comments p))]>
              (db_posts st).
Proof.
  unfold post_comment. run_handler; try (by left).
  right. loaded_post. eexists _, _, _. by repeat split.
Qed.

Lemma delete_comment_effect req st :
  db_posts (snd (delete_comment req st)) = db_posts st
  \/ exists oid p l1 y l2, castObjectId (params_id req) = Some oid
       /\ db_posts st !! oid = Some p
       /\ comments p = l1 ++ y :: l2
       /\ toString (comment_user y) = user_id req
       /\ db_posts (snd (delete_comment req st))
          = <[oid := doc (set_comments (mkDocument oid p) (l1 ++ l2))]> (db_posts st).
Proof.
  destruct (castObjectId (params_id req)) as [oid|] eqn:Hc;
    [|left; unfold delete_comment, try_catch, bind;
      by rewrite (Post_findById_malformed _ _ Hc)].
  destruct (db_online st) eqn:Ho;
    [|left; unfold delete_comment, try_catch, bind;
      by rewrite (Post_findById_offline _ _ _ Hc Ho)].
  destruct (db_posts st !! oid) as [p|] eqn:Hp;
    [|left; unfold delete_comment, try_catch, bind;
      by rewrite (Post_findById_absent _ _ _ Hc Ho Hp)].
  pose proof (Post_findById_found _ _ _ _ Hc Ho Hp) as Hf.
  destruct (List.find (fun c => String.eqb (comment_id c) (params_comment_id req))
                      (comments p)) as [c|] eqn:Hfind;
    [|left; unfold delete_comment, try_catch, bind; rewrite Hf; simpl;
      by rewrite Hfind].
  destruct (String.eqb_spec (toString (comment_user c)) (user_id req)) as [Hu|Hne].
  - right.
    destruct (delete_comment_by_author req st _ c Hf Hfind Hu)
      as (l1 & y & l2 & Hl & Hy & _ & ->).
    by exists oid, p, l1, y, l2.
  - left. unfold delete_comment, try_catch, bind. rewrite Hf. simpl.
    rewrite Hfind. by apply String.eqb_neq in Hne as ->.
Qed.

Lemma same_header_refl p : same_header p p.
Proof. by repeat split. Qed.

Lemma comments_of_others_app caller p (l1 : list Comment) y l2 :
  comments p = l1 ++ y :: l2 ->
  toString (comment_user y) = caller ->
  comments_of_others caller p
  = List.filter (fun c => negb (String.eqb (toString (comment_user c)) caller))
                (l1 ++ l2).
Proof.
  intros Hl Hy. unfold comments_of_others. rewrite Hl, !List.filter_app. simpl.
  by rewrite Hy, String.eqb_refl.
Qed.

(** X18. Whatever the request, delete-comment removes no post and no
    comment written by someone other than the caller: every stored post
    is still stored, with the comments of the other authors all there, in
    their order, and with its likes as they were. *)
Theorem delete_comment_spares_others req st oid p :
  db_posts st !! oid = Some p ->
  exists p',
    db_posts (snd (delete_comment req st)) !! oid = Some p'
    /\ comments_of_others (user_id req) p' = comments_of_others (user_id req) p
    /\ likes p' = likes p.
Proof.
  intros Hp.
  destruct (delete_comment_effect req st)
    as [->|(k & q & l1 & y & l2 & _ & Hq & Hl & Hy & ->)]; [by exists p|].
  destruct (decide (k = oid)) as [->|Hne].
  - rewrite Hq in Hp. injection Hp as ->. eexists.
    split; [apply lookup_insert_eq|]. split; [|done].
    by rewrite (comments_of_others_app _ p l1 y l2 Hl Hy).
  - exists p. by rewrite lookup_insert_ne.
Qed.

(** X19. No route rewrites what a post was created with: whatever the
    route and the request, a post stored before and after has the same
    text, name, avatar, owner and date. *)
Theorem router_keeps_header r fresh now req st oid p p' :
  db_posts st !! oid = Some p ->
  db_posts (snd (router r fresh now req st)) !! oid = Some p' ->
  same_header p p'.
Proof.
  intros Hp. destruct r; simpl.
  - destruct (create_post_effect fresh now req st) as [->|(q & Hfresh & -> & _)].
    + rewrite Hp. intros [= <-]. apply same_header_refl.
    + rewrite lookup_insert_ne by (intros ->; congruence).
      rewrite Hp. intros [= <-]. apply same_header_refl.
  - rewrite get_posts_read_only; rewrite Hp; intros [= <-]; apply same_header_refl.
  - rewrite get_post_by_id_read_only.
    rewrite Hp. intros [= <-]. apply same_header_refl.
  - destruct (delete_post_effect req st) as [->|(k & q & _ & Hq & _ & ->)].
    + rewrite Hp. intros [= <-]. apply same_header_refl.
    + intros Hd. apply lookup_delete_Some in Hd as [_ Hd].
      rewrite Hp in Hd. injection Hd as <-. apply same_header_refl.
  - destruct (put_like_effect fresh req st) as [->|(k & q & l & _ & Hq & ->)].
    + rewrite Hp. intros [= <-]. apply same_header_refl.
    + destruct (decide (k = oid)) as [->|Hne].
      * rewrite lookup_insert_eq. rewrite Hq in Hp. injection Hp as ->.
        intros [= <-]. by repeat split.
      * rewrite lookup_insert_ne by done.
        rewrite Hp. intros [= <-]. apply same_header_refl.
  - destruct (put_unlike_effect req st) as [->|(k & q & l & _ & Hq & ->)].
    + rewrite Hp. intros [= <-]. apply same_header_refl.
    + destruct (decide (k = oid)) as [->|Hne].
      * rewrite lookup_insert_eq. rewrite Hq in Hp. injection Hp as ->.
        intros [= <-]. by repeat split.
      * rewrite lookup_insert_ne by done.
        rewrite Hp. intros [= <-]. apply same_header_refl.
  - destruct (post_comment_effect fresh now req st)
      as [->|(k & q & c & _ & Hq & _ & ->)].
    + rewrite Hp. intros [= <-]. apply same_header_refl.
    + destruct (decide (k = oid)) as [->|Hne].
      * rewrite lookup_insert_eq. rewrite Hq in Hp. injection Hp as ->.
        intros [= <-]. by repeat split.
      * rewrite lookup_insert_ne by done.
        rewrite Hp. intros [= <-]. apply same_header_refl.
  - destruct (delete_comment_effect req st)
      as [->|(k & q & l1 & y & l2 & _ & Hq & _ & _ & ->)].
    + rewrite Hp. intros [= <-]. apply same_header_refl.
    + destruct (decide (k = oid)) as [->|Hne].
      * rewrite lookup_insert_eq. rewrite Hq in Hp. injection Hp as ->.
        intros [= <-]. by repeat split.
      * rewrite lookup_insert_ne by done.
        rewrite Hp. intros [= <-]. apply same_header_refl.
Qed.


(** X21. Posts come and go by create and delete only: every other route
    leaves the set of stored post identifiers as it was. *)
Theorem router_keeps_domain r fresh now req st :
  r <> POST_posts -> r <> DELETE_posts_id ->
  dom (db_posts (snd (router r fresh now req st))) = dom (db_posts st).
Proof.
  intros Hc Hd.
  assert (Hins : forall (m : gmap ObjectId Post) k q q',
             m !! k = Some q -> dom (<[k := q']> m) = dom m).
  { intros m k q q' Hk. apply dom_insert_lookup_L. by exists q. }
  destruct r; simpl; try done.
  - by rewrite get_posts_read_only.
  - by rewrite get_post_by_id_read_only.
  - destruct (put_like_effect fresh req st) as [->|(k & q & l & _ & Hq & ->)];
      [done | by apply (Hins _ _ q)].
  - destruct (put_unlike_effect req st) as [->|(k & q & l & _ & Hq & ->)];
      [done | by apply (Hins _ _ q)].
  - destruct (post_comment_effect fresh now req st)
      as [->|(k & q & c & _ & Hq & _ & ->)];
      [done | by apply (Hins _ _ q)].
  - destruct (delete_comment_effect req st)
      as [->|(k & q & l1 & y & l2 & _ & Hq & _ & _ & ->)];
      [done | by apply (Hins _ _ q)].
Qed.

(** X22. Likes change by like and unlike only, comments by add-comment
    and delete-comment only: under any other route, a post stored before
    and after has the same likes, respectively the same comments. *)
Theorem router_likes_comments_apart r fresh now req st oid p p' :
  db_posts st !! oid = Some p ->
  db_posts (snd (router r fresh now req st)) !! oid = Some p' ->
  (r <> PUT_posts_like_id -> r <> PUT_posts_unlike_id -> likes p' = likes p)
  /\ (r <> POST_posts_comment_id -> r <> DELETE_posts_comment_id_comment_id ->
      comments p' = comments p).
Proof.
  intros Hp. destruct r; simpl.
  - destruct (create_post_effect fresh now req st) as [->|(q & Hfresh & -> & _)].
    + rewrite Hp. by intros [= <-].
    + rewrite lookup_insert_ne by (intros ->; congruence).
      rewrite Hp. by intros [= <-].
  - rewrite get_posts_read_only; rewrite Hp; by intros [= <-].
  - rewrite get_post_by_id_read_only. rewrite Hp. by intros [= <-].
  - destruct (delete_post_effect req st) as [->|(k & q & _ & Hq & _ & ->)].
    + rewrite Hp. by intros [= <-].
    + intros Hd. apply lookup_delete_Some in Hd as [_ Hd].
      rewrite Hp in Hd. by injection Hd as <-.
  - destruct (put_like_effect fresh req st) as [->|(k & q & l & _ & Hq & ->)].
    + rewrite Hp. by intros [= <-].
    + destruct (decide (k = oid)) as [->|Hne].
      * rewrite lookup_insert_eq. rewrite Hq in Hp. injection Hp as ->.
        intros [= <-]. by split.
      * rewrite lookup_insert_ne by done. rewrite Hp. by intros [= <-].
  - destruct (put_unlike_effect req st) as [->|(k & q & l & _ & Hq & ->)].
    + rewrite Hp. by intros [= <-].
    + destruct (decide (k = oid)) as [->|Hne].
      * rewrite lookup_insert_eq. rewrite Hq in Hp. injection Hp as ->.
        intros [= <-]. by split.
      * rewrite lookup_insert_ne by done. rewrite Hp. by intros [= <-].
  - destruct (post_comment_effect fresh now req st)
      as [->|(k & q & c & _ & Hq & _ & ->)].
    + rewrite Hp. by intros [= <-].
    + destruct (decide (k = oid)) as [->|Hne].
      * rewrite lookup_insert_eq. rewrite Hq in Hp. injection Hp as ->.
        intros [= <-]. by split.
      * rewrite lookup_insert_ne by done. rewrite Hp. by intros [= <-].
  - destruct (delete_comment_effect req st)
      as [->|(k & q & l1 & y & l2 & _ & Hq & _ & _ & ->)].
    + rewrite Hp. by intros [= <-].
    + destruct (decide (k = oid)) as [->|Hne].
      * rewrite lookup_insert_eq. rewrite Hq in Hp. injection Hp as ->.
        intros [= <-]. by split.
      * rewrite lookup_insert_ne by done. rewrite Hp. by intros [= <-].
Qed.

(** ** Answers *)

(** X23. No handler lets an exception out, and each answers within its
    own range of statuses: create, like, unlike and add-comment with 200,
    400 or 500; list with 200 or 500; get-by-id with 200, 404 or 500;
    delete with 200, 401 or 500; delete-comment with 200, 401, 404 or
    500. *)
Theorem router_answers r fresh now req st :
  exists res,
    fst (router r fresh now req st) = Normal res
    /\ status res ∈ route_statuses r.
Proof.
  destruct r; simpl;
    [unfold create_post | unfold get_posts | unfold get_post_by_id
     | unfold delete_post | unfold put_like | unfold put_unlike
     | unfold post_comment | unfold delete_comment];
    run_handler;
    (eexists; split; [reflexivity|]; simpl;
     repeat (apply list_elem_of_here || apply list_elem_of_further)).
Qed.

(** X24. While the store cannot be reached, no request succeeds and none
    changes the store: every route answers with an error status. *)
Theorem router_offline r fresh now req st :
  db_online st = false ->
  exists res,
    router r fresh now req st = (Normal res, st)
    /\ status res <> 200%nat.
Proof.
  intros Ho. destruct r; simpl;
    [unfold create_post | unfold get_posts | unfold get_post_by_id
     | unfold delete_post | unfold put_like | unfold put_unlike
     | unfold post_comment | unfold delete_comment];
    run_handler;
    (eexists; split; [reflexivity|]; simpl; done).
Qed.

(** ** Sequences of requests *)

Lemma serve_one_preserves s st :
  likes_invariant st -> likes_invariant (serve_one s st).
Proof.
  intros Hinv. unfold serve_one. destruct (served_route s); simpl.
  - by apply create_post_preserves.
  - by apply get_posts_preserves.
  - by apply get_post_by_id_preserves.
  - by apply delete_post_preserves.
  - by apply put_like_preserves.
  - by apply put_unlike_preserves.
  - by apply post_comment_preserves.
  - by apply delete_comment_preserves.
Qed.

(** X25. However many requests are served, of whatever routes and in
    whatever order, a store in which every post has at most one like per
    user stays so, and the users of the store are never written. *)
Theorem serve_keeps_likes_invariant trace st :
  likes_invariant st ->
  likes_invariant (serve trace st) /\ db_users (serve trace st) = db_users st.
Proof.
  revert st. induction trace as [|s trace IH]; intros st Hinv; simpl; [done|].
  destruct (IH (serve_one s st) (serve_one_preserves s st Hinv)) as [Hinv' Hu].
  split; [done|]. rewrite Hu. unfold serve_one.
  apply router_keeps_users.
Qed.

(** ** The further properties at work on the sample store *)

Lemma sample_hello_unique : likes_unique Sample.hello.
Proof. apply NoDup_singleton. Defined.

Lemma sample_bob_liker : Sample.bob ∈ likers Sample.hello.
Proof. apply list_elem_of_here. Defined.

(** [alice] posts 'hi'. *)
Lemma create_post_stores_post_witness :
  exists post st',
    create_post Sample.fresh_id 30 (Sample.write Sample.alice "" "hi") Sample.db
    = (Normal (res_json (JsonPost post)), st')
    /\ doc_id post = Sample.fresh_id
    /\ post_text (doc post) = "hi"
    /\ post_name (doc post) = "Alice"
    /\ post_avatar (doc post) = "a.png"
    /\ toString (post_user (doc post)) = Sample.alice
    /\ likes (doc post) = [] /\ comments (doc post) = []
    /\ db_posts st' !! Sample.fresh_id = Some (doc post)
    /\ (forall oid, oid <> Sample.fresh_id ->
        db_posts st' !! oid = db_posts Sample.db !! oid).
Proof.
  apply (create_post_stores_post Sample.fresh_id 30
           (Sample.write Sample.alice "" "hi") Sample.db "hi" (mkUser "Alice" "a.png"));
    [reflexivity | discriminate | reflexivity | reflexivity | reflexivity].
Defined.

(** [alice] posts 'hi', [bob] fetches the post. *)
Lemma create_then_get_post_witness :
  exists post st',
    create_post Sample.fresh_id 30 (Sample.write Sample.alice "" "hi") Sample.db
    = (Normal (res_json (JsonPost post)), st')
    /\ get_post_by_id (Sample.request Sample.bob (toString Sample.fresh_id)) st'
       = (Normal (res_json (JsonPost post)), st').
Proof.
  apply (create_then_get_post Sample.fresh_id 30
           (Sample.write Sample.alice "" "hi") Sample.db "hi" (mkUser "Alice" "a.png"));
    [reflexivity | discriminate | reflexivity | reflexivity | reflexivity
     | reflexivity].
Defined.

(** [carol], of whom the store has no record, posts 'hi'. *)
Lemma create_post_unknown_user_witness :
  create_post Sample.fresh_id 30 (Sample.write Sample.carol "" "hi") Sample.db
  = (Normal (res_status 500 (Text "Server error")), Sample.db).
Proof.
  apply (create_post_unknown_user Sample.fresh_id 30
           (Sample.write Sample.carol "" "hi") Sample.db);
    [reflexivity | discriminate].
Defined.

(** [alice] deletes her post. *)
Lemma delete_post_by_owner_witness :
  exists st',
    delete_post (Sample.request Sample.alice Sample.hello_id) Sample.db
    = (Normal (res_json (JsonMsg "Post removed")), st')
    /\ db_posts st' !! doc_id Sample.hello_doc = None
    /\ (forall oid, oid <> doc_id Sample.hello_doc ->
        db_posts st' !! oid = db_posts Sample.db !! oid)
    /\ Post_findById (params_id (Sample.request Sample.alice Sample.hello_id)) st'
       = (Normal None, st').
Proof.
  apply (delete_post_by_owner (Sample.request Sample.alice Sample.hello_id)
           Sample.db Sample.hello_doc (sample_hello_found Sample.alice)).
  reflexivity.
Defined.

(** [bob] tries to delete whatever: the post of [alice] stays. *)
Lemma delete_post_spares_others_witness :
  db_posts (snd (delete_post (Sample.request Sample.bob Sample.hello_id) Sample.db))
    !! mkObjectId Sample.hello_id = Some Sample.hello.
Proof.
  apply (delete_post_spares_others (Sample.request Sample.bob Sample.hello_id)
           Sample.db (mkObjectId Sample.hello_id) Sample.hello);
    [reflexivity | discriminate].
Defined.


(** The identifier of no post. *)
Lemma missing_post_server_error_witness :
  let req := Sample.write Sample.alice Sample.nobody_id "hi" in
  delete_post req Sample.db = (Normal (res_status 500 (Text "Server error")), Sample.db)
  /\ delete_comment req Sample.db
     = (Normal (res_status 500 (Text "Server error")), Sample.db)
  /\ (default "" (body_text req) <> "" ->
      post_comment Sample.fresh_id 30 req Sample.db
      = (Normal (res_status 500 (Text "Server error")), Sample.db)).
Proof.
  intros req.
  apply (missing_post_server_error Sample.fresh_id 30 req Sample.db
           (mkObjectId Sample.nobody_id));
    reflexivity.
Defined.

(** [carol] likes the post twice. *)
Lemma like_twice_rejected_witness :
  exists st1 p1,
    snd (put_like Sample.fresh_id (Sample.request Sample.carol Sample.hello_id) Sample.db)
    = st1
    /\ db_posts st1 !! doc_id Sample.hello_doc = Some p1
    /\ likers p1 = Sample.carol :: likers Sample.hello
    /\ put_like (mkObjectId Sample.nobody_id)
         (Sample.request Sample.carol Sample.hello_id) st1
       = (Normal (res_status 400 (JsonMsg "Post already liked")), st1).
Proof.
  exact (like_twice_rejected Sample.fresh_id (mkObjectId Sample.nobody_id)
           (Sample.request Sample.carol Sample.hello_id) Sample.db Sample.hello_doc
           (sample_hello_found Sample.carol) sample_carol_not_liker).
Defined.

(** [bob] unlikes the post he likes. *)
Lemma put_unlike_removes_caller_witness :
  exists rest st' p',
    put_unlike (Sample.request Sample.bob Sample.hello_id) Sample.db
    = (Normal (res_json (JsonLikes rest)), st')
    /\ rest = List.filter (fun like => negb (liked_by Sample.bob like))
                          (likes Sample.hello)
    /\ S (List.length rest) = List.length (likes Sample.hello)
    /\ db_posts st' !! doc_id Sample.hello_doc = Some p'
    /\ likes p' = rest
    /\ Sample.bob ∉ likers p'.
Proof.
  exact (put_unlike_removes_caller (Sample.request Sample.bob Sample.hello_id)
           Sample.db Sample.hello_doc
           (sample_hello_found Sample.bob) sample_hello_unique sample_bob_liker).
Defined.

(** [bob] unlikes the post twice. *)
Lemma unlike_twice_rejected_witness :
  exists st1,
    snd (put_unlike (Sample.request Sample.bob Sample.hello_id) Sample.db) = st1
    /\ put_unlike (Sample.request Sample.bob Sample.hello_id) st1
       = (Normal (res_status 400 (JsonMsg "Post has not yet being liked")), st1).
Proof.
  exact (unlike_twice_rejected (Sample.request Sample.bob Sample.hello_id)
           Sample.db Sample.hello_doc
           (sample_hello_found Sample.bob) sample_hello_unique sample_bob_liker).
Defined.

(** [bob] comments 'nice' on the post of [alice]. *)
Lemma post_comment_prepends_witness :
  exists c st' p',
    post_comment Sample.fresh_id 30
      (Sample.write Sample.bob Sample.hello_id "nice") Sample.db
    = (Normal (res_json (JsonComments (c :: [Sample.newer; Sample.older]))), st')
    /\ comment_text c = "nice"
    /\ toString (comment_user c) = Sample.bob
    /\ comment_name c = "Bob"
    /\ comment_avatar c = "b.png"
    /\ comment_id c = toString Sample.fresh_id
    /\ db_posts st' !! doc_id Sample.hello_doc = Some p'
    /\ comments p' = c :: [Sample.newer; Sample.older]
    /\ likes p' = [Sample.bobs_like].
Proof.
  apply (post_comment_prepends Sample.fresh_id 30
           (Sample.write Sample.bob Sample.hello_id "nice") Sample.db
           "nice" (mkUser "Bob" "b.png") Sample.hello_doc);
    [reflexivity | discriminate | reflexivity | exact (sample_hello_found Sample.bob)].
Defined.

(** [bob] sends a comment without a text. *)
Lemma post_comment_empty_text_witness :
  post_comment Sample.fresh_id 30 (Sample.request Sample.bob Sample.hello_id) Sample.db
  = (Normal (res_status 400
       (JsonErrors [ {| msg := "Text is required"; param := "text" |} ])), Sample.db).
Proof.
  apply (post_comment_empty_text Sample.fresh_id 30
           (Sample.request Sample.bob Sample.hello_id) Sample.db).
  reflexivity.
Defined.

(** [bob] comments 'nice', then deletes that comment. *)
Lemma comment_then_delete_round_trip_witness :
  delete_comment
    (Sample.on_comment Sample.bob Sample.hello_id (toString Sample.fresh_id))
    (snd (post_comment Sample.fresh_id 30
            (Sample.write Sample.bob Sample.hello_id "nice") Sample.db))
  = (Normal (res_json (JsonComments [Sample.newer; Sample.older])), Sample.db).
Proof.
  apply (comment_then_delete_round_trip Sample.fresh_id 30
           (Sample.write Sample.bob Sample.hello_id "nice") Sample.db
           "nice" (mkUser "Bob" "b.png") Sample.hello_doc
           (Sample.on_comment Sample.bob Sample.hello_id (toString Sample.fresh_id)));
    [reflexivity | discriminate | reflexivity | exact (sample_hello_found Sample.bob)
     | reflexivity | reflexivity | reflexivity].
Defined.

(** [alice] deletes a comment that is not there. *)
Lemma delete_comment_unknown_comment_witness :
  delete_comment (Sample.on_comment Sample.alice Sample.hello_id "nope") Sample.db
  = (Normal (res_status 404 (JsonMsg "Comment does not exist")), Sample.db).
Proof.
  apply (delete_comment_unknown_comment
           (Sample.on_comment Sample.alice Sample.hello_id "nope")
           Sample.db Sample.hello_doc (sample_hello_found Sample.alice)).
  change (comments (doc Sample.hello_doc)) with [Sample.newer; Sample.older].
  repeat (apply Forall_cons_2; [discriminate|]). apply Forall_nil_2.
Defined.

(** [bob] tries to delete a comment of [alice]. *)
Lemma delete_comment_not_author_witness :
  delete_comment
    (Sample.on_comment Sample.bob Sample.hello_id (comment_id Sample.older)) Sample.db
  = (Normal (res_status 401 (JsonMsg "User not authorized")), Sample.db).
Proof.
  apply (delete_comment_not_author
           (Sample.on_comment Sample.bob Sample.hello_id (comment_id Sample.older))
           Sample.db Sample.hello_doc Sample.older (sample_hello_found Sample.bob));
    [reflexivity | discriminate].
Defined.

(** [alice] deletes the newer of her two comments. *)
Lemma delete_comment_first_of_author_witness :
  delete_comment
    (Sample.on_comment Sample.alice Sample.hello_id (comment_id Sample.newer)) Sample.db
  = (Normal (res_json (JsonComments ([] ++ [Sample.older]))),
     {| db_posts := <[doc_id Sample.hello_doc :=
                        doc (set_comments Sample.hello_doc ([] ++ [Sample.older]))]>
                      (db_posts Sample.db);
        db_users := db_users Sample.db; db_online := db_online Sample.db |}).
Proof.
  apply (delete_comment_first_of_author
           (Sample.on_comment Sample.alice Sample.hello_id (comment_id Sample.newer))
           Sample.db Sample.hello_doc [] Sample.newer [Sample.older]
           (sample_hello_found Sample.alice));
    [reflexivity | reflexivity | apply Forall_nil_2 | apply Forall_nil_2 | reflexivity].
Defined.

(** [bob] comments, then [alice] deletes the older of her comments: the
    comment of [bob] is still there. *)
Lemma delete_comment_spares_others_witness :
  let st1 := snd (post_comment Sample.fresh_id 30
                    (Sample.write Sample.bob Sample.hello_id "nice") Sample.db) in
  let p1 := doc (set_comments Sample.hello_doc
                   (new_comment Sample.fresh_id 30 "nice" "Bob" "b.png" Sample.bob
                      :: comments Sample.hello)) in
  let req := Sample.on_comment Sample.alice Sample.hello_id (comment_id Sample.older) in
  exists p',
    db_posts (snd (delete_comment req st1)) !! mkObjectId Sample.hello_id = Some p'
    /\ comments_of_others Sample.alice p' = comments_of_others Sample.alice p1
    /\ likes p' = likes p1.
Proof.
  intros st1 p1 req.
  apply (delete_comment_spares_others req st1 (mkObjectId Sample.hello_id) p1).
  reflexivity.
Defined.

Lemma sample_carol_likes :
  db_posts (snd (router PUT_posts_like_id Sample.fresh_id 30
                   (Sample.request Sample.carol Sample.hello_id) Sample.db))
    !! mkObjectId Sample.hello_id
  = Some (doc (set_likes Sample.hello_doc
                 (new_like Sample.fresh_id Sample.carol :: likes Sample.hello))).
Proof. vm_compute. reflexivity. Defined.

(** [carol] likes the post: what the post was created with is as before. *)
Lemma router_keeps_header_witness :
  same_header Sample.hello
    (doc (set_likes Sample.hello_doc
            (new_like Sample.fresh_id Sample.carol :: likes Sample.hello))).
Proof.
  apply (router_keeps_header PUT_posts_like_id Sample.fresh_id 30
           (Sample.request Sample.carol Sample.hello_id) Sample.db
           (mkObjectId Sample.hello_id));
    [reflexivity | exact sample_carol_likes].
Defined.


(** [carol] likes a post: the same posts are stored. *)
Lemma router_keeps_domain_witness :
  dom (db_posts (snd (router PUT_posts_like_id Sample.fresh_id 30
                        (Sample.request Sample.carol Sample.hello_id) Sample.db)))
  = dom (db_posts Sample.db).
Proof.
  apply (router_keeps_domain PUT_posts_like_id Sample.fresh_id 30
           (Sample.request Sample.carol Sample.hello_id) Sample.db);
    discriminate.
Defined.

(** [carol] likes the post: its comments are as before. *)
Lemma router_likes_comments_apart_witness :
  let p' := doc (set_likes Sample.hello_doc
                   (new_like Sample.fresh_id Sample.carol :: likes Sample.hello)) in
  (PUT_posts_like_id <> PUT_posts_like_id -> PUT_posts_like_id <> PUT_posts_unlike_id ->
   likes p' = likes Sample.hello)
  /\ (PUT_posts_like_id <> POST_posts_comment_id ->
      PUT_posts_like_id <> DELETE_posts_comment_id_comment_id ->
      comments p' = comments Sample.hello).
Proof.
  intros p'.
  apply (router_likes_comments_apart PUT_posts_like_id Sample.fresh_id 30
           (Sample.request Sample.carol Sample.hello_id) Sample.db
           (mkObjectId Sample.hello_id));
    [reflexivity | exact sample_carol_likes].
Defined.

(** [alice] asks for the list while the store is out of reach. *)
Lemma router_offline_witness :
  exists res,
    router GET_posts Sample.fresh_id 30 (Sample.request Sample.alice "")
      Sample.offline_db
    = (Normal res, Sample.offline_db)
    /\ status res <> 200%nat.
Proof.
  apply (router_offline GET_posts Sample.fresh_id 30
           (Sample.request Sample.alice "") Sample.offline_db).
  reflexivity.
Defined.

(** [carol] likes the post, [bob] unlikes it, [alice] deletes a comment. *)
Lemma serve_keeps_likes_invariant_witness :
  let trace :=
    [ mkServed PUT_posts_like_id Sample.fresh_id 30
        (Sample.request Sample.carol Sample.hello_id);
      mkServed PUT_posts_unlike_id Sample.fresh_id 31
        (Sample.request Sample.bob Sample.hello_id);
      mkServed DELETE_posts_comment_id_comment_id Sample.fresh_id 32
        (Sample.on_comment Sample.alice Sample.hello_id (comment_id Sample.older)) ] in
  likes_invariant (serve trace Sample.db)
  /\ db_users (serve trace Sample.db) = db_users Sample.db.
Proof.
  intros trace.
  exact (serve_keeps_likes_invariant trace Sample.db sample_likes_invariant).
Defined.
